(** * JapaneseChatAI: a shallow embedding of the chat client

    The client (src/App.tsx, src/components/VoiceInput.tsx, src/types.ts)
    is a React application.  React state is modelled as a record threaded
    through the handlers, the two [useRef] cells of the audio code as
    fields of that record, [localStorage] as a finite map from keys to the
    stored documents, and [Date.now()] as a clock read from a stream.

    Strings are [String.string]; the Japanese and Chinese literals of the
    source are kept as UTF-8 byte strings.  JavaScript compares strings by
    code units and UTF-8 is self-synchronising, so [endsWith] on the UTF-8
    bytes agrees with [endsWith] on the UTF-16 code units of the source. *)

From Stdlib Require Import String List ZArith Bool Lia.
From stdpp Require Import base gmap strings.
Import ListNotations.
Open Scope string_scope.

(** ** Strings *)

(** [String.prototype.endsWith]: [s] ends with [suffix] when it equals
    [suffix] or its tail does. *)
Fixpoint endsWith (s suffix : string) : bool :=
  String.eqb s suffix ||
  match s with
  | EmptyString => false
  | String _ s' => endsWith s' suffix
  end.

(** [Number.prototype.toString] on the integers produced by [Date.now()]. *)
Fixpoint string_of_uint (d : Decimal.uint) : string :=
  match d with
  | Decimal.Nil => ""
  | Decimal.D0 d => "0" ++ string_of_uint d
  | Decimal.D1 d => "1" ++ string_of_uint d
  | Decimal.D2 d => "2" ++ string_of_uint d
  | Decimal.D3 d => "3" ++ string_of_uint d
  | Decimal.D4 d => "4" ++ string_of_uint d
  | Decimal.D5 d => "5" ++ string_of_uint d
  | Decimal.D6 d => "6" ++ string_of_uint d
  | Decimal.D7 d => "7" ++ string_of_uint d
  | Decimal.D8 d => "8" ++ string_of_uint d
  | Decimal.D9 d => "9" ++ string_of_uint d
  end.

Definition toString (z : Z) : string :=
  match Z.to_int z with
  | Decimal.Pos d => string_of_uint d
  | Decimal.Neg d => "-" ++ string_of_uint d
  end.

(** ** src/components/VoiceInput.tsx: the transcript assembler *)

Module VoiceInput.

(** The loop of [recognition.onresult]:
    [for (let i = 0; i < event.results.length; i++) {
       if (i > 0) newVoiceTranscript += ' ';
       newVoiceTranscript += event.results[i][0].transcript; }]
    Each element of [results] is the transcript of the first alternative
    of one recognition result. *)
Fixpoint transcript_loop (i : nat) (results : list string) (acc : string)
  : string :=
  match results with
  | [] => acc
  | r :: rs =>
      let acc1 := if Nat.ltb 0 i then acc ++ " " else acc in
      transcript_loop (S i) rs (acc1 ++ r)
  end.

Definition newVoiceTranscript (results : list string) : string :=
  transcript_loop 0 results "".

(** The ideographic space U+3000 (the literal ['　'] of the source). *)
Definition ideographic_space : string := "　".

(** [const needsSpace = prefix.length > 0 && !prefix.endsWith(' ')
                       && !prefix.endsWith('　');] *)
Definition needsSpace (prefix : string) : bool :=
  Nat.ltb 0 (String.length prefix) && negb (endsWith prefix " ")
  && negb (endsWith prefix ideographic_space).

(** The text set by [recognition.onresult]:
    [prefix + (needsSpace ? ' ' : '') + newVoiceTranscript], where
    [prefix = baseTextRef.current]. *)
Definition onresult (baseText : string) (results : list string) : string :=
  baseText ++ ((if needsSpace baseText then " " else "")
               ++ newVoiceTranscript results).

End VoiceInput.

(** ** src/types.ts: the data model *)

Inductive Sender := USER | AI.

Module FeedbackData.
Record t := mk {
  original : string;
  corrected : string;
  explanation : string;
  score : Z
}.
End FeedbackData.

(** [Message]; the optional [isAudioPlaying] field is never set by the
    client and is left out. *)
Module Message.
Record t := mk {
  id : string;
  sender : Sender;
  text : string;
  timestamp : Z;
  feedback : option FeedbackData.t;
  translation : option string
}.
End Message.

Module ChatSession.
Record t := mk {
  id : string;
  title : string;
  createdAt : Z;
  messages : list Message.t
}.
End ChatSession.

(** The source tags ['AI回复' | 'AI修正' | '手动选择']. *)
Inductive SentenceSource := AIReply | AICorrection | ManualSelection.

Module SavedSentence.
Record t := mk {
  id : string;
  original : string;
  translation : option string;
  source : SentenceSource;
  timestamp : Z;
  note : option string
}.
End SavedSentence.

Module TutorResponse.
Record feedback_t := mkFeedback {
  correctedSentence : string;
  explanation : string;
  naturalnessScore : Z
}.
Record t := mk {
  reply : string;
  replyTranslation : string;
  feedback : feedback_t
}.
End TutorResponse.

(** The history entries sent to the tutor:
    [{ role: 'user' | 'model', parts: [{ text }] }]. *)
Inductive Role := RoleUser | RoleModel.

Record ApiContent := mkContent { role : Role; parts : list string }.

(** ** The client state *)

(** A document kept in [localStorage] (its JSON text abstracted to the
    value it serialises). *)
Inductive Stored :=
| StoredSessions (s : list ChatSession.t)
| StoredSentences (s : list SavedSentence.t).

(** What the audio code does to the outside world. *)
Inductive AudioEvent :=
| SpeechRequested (text : string)   (* generateSpeech(text) *)
| SourceStarted (node : nat)        (* source.start() *)
| SourceStopped (node : nat).       (* sourceNodeRef.current.stop() *)

(** A [handlePlayAudio] call suspended on [await generateSpeech(text)]:
    its request number, the text and the message id it captured. *)
Record PendingSpeech := mkPending {
  req : nat;
  ptext : string;
  pmessageId : string
}.

Record App := mkApp {
  (* useState *)
  sessions : list ChatSession.t;
  savedSentences : list SavedSentence.t;
  currentSessionId : string;
  isLoading : bool;
  toastMessage : option string;
  currentlyPlayingId : option string;
  (* sourceNodeRef: the node handle of the current AudioBufferSourceNode *)
  sourceNodeRef : option nat;
  (* localStorage *)
  storage : gmap string Stored;
  (* Date.now(): the clock reads are clk 0, clk 1, ...; ticks have been made *)
  clk : nat -> Z;
  ticks : nat;
  (* environment bookkeeping: fresh node handles and request numbers, the
     started sources not yet stopped or ended, the suspended speech
     requests, and the logs of audio effects and tutor calls *)
  nextNode : nat;
  nextReq : nat;
  sounding : list nat;
  pending : list PendingSpeech;
  audioLog : list AudioEvent;
  tutorLog : list (list ApiContent * string)
}.

(** ** A state monad over the client state *)

Definition M (A : Type) : Type := App -> A * App.

Global Instance M_ret : MRet M := fun A a st => (a, st).
Global Instance M_bind : MBind M :=
  fun A B f m st => let '(a, st') := m st in f a st'.

Definition gets {A} (f : App -> A) : M A := fun st => (f st, st).
Definition modify (f : App -> App) : M unit := fun st => (tt, f st).

Definition upd_sessions (f : list ChatSession.t -> list ChatSession.t)
  (st : App) : App :=
  {| sessions := f (sessions st); savedSentences := savedSentences st;
     currentSessionId := currentSessionId st; isLoading := isLoading st;
     toastMessage := toastMessage st;
     currentlyPlayingId := currentlyPlayingId st;
     sourceNodeRef := sourceNodeRef st; storage := storage st;
     clk := clk st; ticks := ticks st; nextNode := nextNode st;
     nextReq := nextReq st; sounding := sounding st; pending := pending st;
     audioLog := audioLog st; tutorLog := tutorLog st |}.

Definition upd_saved (f : list SavedSentence.t -> list SavedSentence.t)
  (st : App) : App :=
  {| sessions := sessions st; savedSentences := f (savedSentences st);
     currentSessionId := currentSessionId st; isLoading := isLoading st;
     toastMessage := toastMessage st;
     currentlyPlayingId := currentlyPlayingId st;
     sourceNodeRef := sourceNodeRef st; storage := storage st;
     clk := clk st; ticks := ticks st; nextNode := nextNode st;
     nextReq := nextReq st; sounding := sounding st; pending := pending st;
     audioLog := audioLog st; tutorLog := tutorLog st |}.

Definition upd_ui (cur : string) (loading : bool) (toast : option string)
  (st : App) : App :=
  {| sessions := sessions st; savedSentences := savedSentences st;
     currentSessionId := cur; isLoading := loading; toastMessage := toast;
     currentlyPlayingId := currentlyPlayingId st;
     sourceNodeRef := sourceNodeRef st; storage := storage st;
     clk := clk st; ticks := ticks st; nextNode := nextNode st;
     nextReq := nextReq st; sounding := sounding st; pending := pending st;
     audioLog := audioLog st; tutorLog := tutorLog st |}.

Definition upd_storage (f : gmap string Stored -> gmap string Stored)
  (st : App) : App :=
  {| sessions := sessions st; savedSentences := savedSentences st;
     currentSessionId := currentSessionId st; isLoading := isLoading st;
     toastMessage := toastMessage st;
     currentlyPlayingId := currentlyPlayingId st;
     sourceNodeRef := sourceNodeRef st; storage := f (storage st);
     clk := clk st; ticks := ticks st; nextNode := nextNode st;
     nextReq := nextReq st; sounding := sounding st; pending := pending st;
     audioLog := audioLog st; tutorLog := tutorLog st |}.

Definition upd_ticks (n : nat) (st : App) : App :=
  {| sessions := sessions st; savedSentences := savedSentences st;
     currentSessionId := currentSessionId st; isLoading := isLoading st;
     toastMessage := toastMessage st;
     currentlyPlayingId := currentlyPlayingId st;
     sourceNodeRef := sourceNodeRef st; storage := storage st;
     clk := clk st; ticks := n; nextNode := nextNode st;
     nextReq := nextReq st; sounding := sounding st; pending := pending st;
     audioLog := audioLog st; tutorLog := tutorLog st |}.

(** The audio part of the state, updated as a whole. *)
Definition upd_audio (playing : option string) (node : option nat)
  (nn nr : nat) (snd : list nat) (pd : list PendingSpeech)
  (log : list AudioEvent) (st : App) : App :=
  {| sessions := sessions st; savedSentences := savedSentences st;
     currentSessionId := currentSessionId st; isLoading := isLoading st;
     toastMessage := toastMessage st; currentlyPlayingId := playing;
     sourceNodeRef := node; storage := storage st;
     clk := clk st; ticks := ticks st; nextNode := nn; nextReq := nr;
     sounding := snd; pending := pd; audioLog := log;
     tutorLog := tutorLog st |}.

Definition upd_tutorLog (e : list ApiContent * string) (st : App) : App :=
  {| sessions := sessions st; savedSentences := savedSentences st;
     currentSessionId := currentSessionId st; isLoading := isLoading st;
     toastMessage := toastMessage st;
     currentlyPlayingId := currentlyPlayingId st;
     sourceNodeRef := sourceNodeRef st; storage := storage st;
     clk := clk st; ticks := ticks st; nextNode := nextNode st;
     nextReq := nextReq st; sounding := sounding st; pending := pending st;
     audioLog := audioLog st; tutorLog := tutorLog st ++ [e] |}.

(** [Date.now()] (and [new Date()], kept as its millisecond value). *)
Definition now : M Z :=
  fun st => (clk st (ticks st), upd_ticks (S (ticks st)) st).

(** [setSessions(prev => ...)] with an updater that may read the clock.
    React queues the updater and runs it once, when it renders the update:
    after the event handler's synchronous code has returned.  A caller
    places [setSessionsM] at that point, so that the updater's clock reads
    come after the handler's own. *)
Definition setSessionsM (f : list ChatSession.t -> M (list ChatSession.t))
  : M unit :=
  fun st => let '(l, st') := f (sessions st) st in
            (tt, upd_sessions (fun _ => l) st').

Definition setSessions (f : list ChatSession.t -> list ChatSession.t)
  : M unit := modify (upd_sessions f).

Definition setSavedSentences
  (f : list SavedSentence.t -> list SavedSentence.t) : M unit :=
  modify (upd_saved f).

Definition setCurrentSessionId (s : string) : M unit :=
  modify (fun st => upd_ui s (isLoading st) (toastMessage st) st).

Definition setIsLoading (b : bool) : M unit :=
  modify (fun st => upd_ui (currentSessionId st) b (toastMessage st) st).

Definition setToastMessage (t : option string) : M unit :=
  modify (fun st => upd_ui (currentSessionId st) (isLoading st) t st).

(** [prev.map(f)] where [f] may read the clock. *)
Fixpoint mapS {A B} (f : A -> M B) (l : list A) : M (list B) :=
  match l with
  | [] => mret []
  | x :: l' => y ← f x; ys ← mapS f l'; mret (y :: ys)
  end.


(** ** src/App.tsx: the playback controller *)

Definition setCurrentlyPlayingId (p : option string) : M unit :=
  modify (fun st => upd_audio p (sourceNodeRef st) (nextNode st) (nextReq st)
                      (sounding st) (pending st) (audioLog st) st).

Definition setSourceNodeRef (n : option nat) : M unit :=
  modify (fun st => upd_audio (currentlyPlayingId st) n (nextNode st)
                      (nextReq st) (sounding st) (pending st) (audioLog st) st).

Definition remove_node (n : nat) (l : list nat) : list nat :=
  List.filter (fun m => negb (Nat.eqb m n)) l.

(** [node.stop()]: the node stops sounding (a second stop is harmless). *)
Definition stopNode (n : nat) : M unit :=
  modify (fun st => upd_audio (currentlyPlayingId st) (sourceNodeRef st)
                      (nextNode st) (nextReq st) (remove_node n (sounding st))
                      (pending st) (audioLog st ++ [SourceStopped n]) st).

(** [createBufferSource()] then, later, [source.start()]. *)
Definition createBufferSource : M nat :=
  fun st => (nextNode st,
             upd_audio (currentlyPlayingId st) (sourceNodeRef st)
               (S (nextNode st)) (nextReq st) (sounding st) (pending st)
               (audioLog st) st).

Definition startNode (n : nat) : M unit :=
  modify (fun st => upd_audio (currentlyPlayingId st) (sourceNodeRef st)
                      (nextNode st) (nextReq st) (sounding st ++ [n])
                      (pending st) (audioLog st ++ [SourceStarted n]) st).

(** [generateSpeech(text)] is issued and the call suspends on it. *)
Definition requestSpeech (text messageId : string) : M unit :=
  modify (fun st => upd_audio (currentlyPlayingId st) (sourceNodeRef st)
                      (nextNode st) (S (nextReq st)) (sounding st)
                      (pending st ++ [mkPending (nextReq st) text messageId])
                      (audioLog st ++ [SpeechRequested text]) st).

Definition removePending (r : nat) : M unit :=
  modify (fun st => upd_audio (currentlyPlayingId st) (sourceNodeRef st)
                      (nextNode st) (nextReq st) (sounding st)
                      (List.filter (fun p => negb (Nat.eqb (req p) r)) (pending st))
                      (audioLog st) st).

(** [stopAudio]:
    [if (sourceNodeRef.current) { try { sourceNodeRef.current.stop(); }
       catch (e) {} sourceNodeRef.current = null; }
     setCurrentlyPlayingId(null);] *)
Definition stopAudio : M unit :=
  node ← gets sourceNodeRef;
  match node with
  | Some n => stopNode n ;; setSourceNodeRef None
  | None => mret tt
  end ;;
  setCurrentlyPlayingId None.

Definition opt_str_eqb (a : option string) (b : string) : bool :=
  match a with Some a' => String.eqb a' b | None => false end.

(** The synchronous part of [handlePlayAudio(text, messageId)], up to the
    [await] on the speech request.  [seen] is the value of
    [currentlyPlayingId] in the closure of the calling render. *)
Definition handlePlayAudio (seen : option string) (text messageId : string)
  : M unit :=
  if opt_str_eqb seen messageId then stopAudio
  else stopAudio ;; setCurrentlyPlayingId (Some messageId) ;;
       requestSpeech text messageId.

(** The rest of [handlePlayAudio], run when the speech request [r]
    settles: [ok] when [generateSpeech] and [decodeAudioData] resolve,
    otherwise the [catch] branch. *)
Definition audioReady (r : nat) (ok : bool) : M unit :=
  pd ← gets pending;
  match find (fun p => Nat.eqb (req p) r) pd with
  | None => mret tt
  | Some _ =>
      removePending r ;;
      if ok then
        source ← createBufferSource;
        setSourceNodeRef (Some source) ;;
        startNode source
      else setCurrentlyPlayingId None
  end.

(** [source.onended] of node [n] (fired when it finishes or is stopped):
    [setCurrentlyPlayingId(null); sourceNodeRef.current = null;] *)
Definition audioEnded (n : nat) : M unit :=
  setCurrentlyPlayingId None ;;
  setSourceNodeRef None ;;
  modify (fun st => upd_audio (currentlyPlayingId st) (sourceNodeRef st)
                      (nextNode st) (nextReq st) (remove_node n (sounding st))
                      (pending st) (audioLog st) st).

(** A click on a message's play button: the closure reads the
    [currentlyPlayingId] of the latest render. *)
Definition play (text messageId : string) : M unit :=
  seen ← gets currentlyPlayingId; handlePlayAudio seen text messageId.

(** The two controller states of the spec, read off the client state. *)
Inductive PlaybackState := Idle | Playing (messageId : string).

Definition playback_state (st : App) : PlaybackState :=
  match currentlyPlayingId st with
  | Some m => Playing m
  | None => Idle
  end.

(** Running a sequence of client events. *)
Definition run {A} (m : M A) (st : App) : App := snd (m st).


(** ** src/App.tsx: sessions, bookmarks and persistence *)

Definition LOCAL_STORAGE_KEY : string := "japanese-tutor-sessions".
Definition SAVED_SENTENCES_KEY : string := "japanese-tutor-saved-sentences".
Definition DEFAULT_TITLE : string := "新对话".
Definition WELCOME_TEXT : string :=
  "こんにちは！日本語の練習をしましょう。何でも話しかけてください。".
Definition WELCOME_TRANSLATION : string :=
  "你好！让我们来练习日语吧。你可以说任何你想说的话。".
Definition ERROR_TEXT : string :=
  "申し訳ありません。エラーが発生しました。(抱歉，发生了错误。)".
Definition SAVED_TOAST : string := "已加入收藏本".

Definition createWelcomeMessage : M Message.t :=
  ts ← now;
  mret (Message.mk "welcome" AI WELCOME_TEXT ts None
          (Some WELCOME_TRANSLATION)).

(** [{ id: Date.now().toString(), title: '新对话', createdAt: Date.now(),
       messages: [createWelcomeMessage()] }] *)
Definition createNewSession : M ChatSession.t :=
  t0 ← now; t1 ← now; w ← createWelcomeMessage;
  mret (ChatSession.mk (toString t0) DEFAULT_TITLE t1 [w]).

Definition initFirstSession : M unit :=
  newSession ← createNewSession;
  setSessions (fun _ => [newSession]) ;;
  setCurrentSessionId (ChatSession.id newSession).

Definition handleNewChat : M unit :=
  newSession ← createNewSession;
  setSessions (fun prev => newSession :: prev) ;;
  setCurrentSessionId (ChatSession.id newSession).

(** [onSelectSession={setCurrentSessionId}]. *)
Definition selectSession (id : string) : M unit := setCurrentSessionId id.

Definition handleClearAllSessions : M unit :=
  modify (upd_storage (delete LOCAL_STORAGE_KEY)) ;;
  initFirstSession.

Definition handleSaveSentence (text : string) (translation : option string)
  (source : SentenceSource) : M unit :=
  t0 ← now; t1 ← now;
  let newSaved := SavedSentence.mk (toString t0) text translation source t1
                    None in
  setSavedSentences (fun prev => newSaved :: prev) ;;
  setToastMessage (Some SAVED_TOAST).

Definition handleDeleteSentence (id : string) : M unit :=
  setSavedSentences
    (List.filter (fun s => negb (String.eqb (SavedSentence.id s) id))).

(** The two [useEffect]s that write the collections back after a render in
    which they changed (rewriting an unchanged value is the same write). *)
Definition persistEffects : M unit :=
  modify (fun st =>
    upd_storage (fun m =>
      let m' := if Nat.ltb 0 (length (sessions st))
                then <[LOCAL_STORAGE_KEY := StoredSessions (sessions st)]> m
                else m in
      <[SAVED_SENTENCES_KEY := StoredSentences (savedSentences st)]> m') st).

(** A user event: the handler, then the render's effects. *)
Definition event {A} (h : M A) : M unit := h ;; persistEffects.

(** [const currentSession = sessions.find(s => s.id === currentSessionId);
     const messages = currentSession?.messages || [];] *)
Definition currentSession (st : App) : option ChatSession.t :=
  find (fun s => String.eqb (ChatSession.id s) (currentSessionId st))
    (sessions st).

Definition current_messages (st : App) : list Message.t :=
  match currentSession st with
  | Some s => ChatSession.messages s
  | None => []
  end.


(** ** src/App.tsx: the conversation orchestrator ([handleSendMessage]) *)

(** [arr.slice(-k)] for [k > 0] and [arr.slice(0, -1)]. *)
Definition slice_last {A} (k : nat) (l : list A) : list A :=
  skipn (length l - k) l.

Definition slice_drop_last {A} (l : list A) : list A :=
  firstn (length l - 1) l.

Definition sender_eqb (a b : Sender) : bool :=
  match a, b with USER, USER | AI, AI => true | _, _ => false end.

Definition toApiContent (m : Message.t) : ApiContent :=
  mkContent (if sender_eqb (Message.sender m) USER then RoleUser else RoleModel)
    [Message.text m].

(** The history passed to [sendMessageToTutor]. *)
Definition apiHistory_of (messages : list Message.t) (userMessage : Message.t)
  : list ApiContent :=
  let allHistoryMessages :=
    List.filter (fun m => negb (String.eqb (Message.id m) "welcome")) messages in
  let recentHistory := slice_last 12 (allHistoryMessages ++ [userMessage]) in
  map toApiContent (slice_drop_last recentHistory).

(** The model's strings hold UTF-8 bytes; JavaScript's [length] and
    [slice] count UTF-16 code units.  [utf16_units] decodes UTF-8 text to
    its code units (a byte that starts no complete sequence, which UTF-8
    text does not contain, is kept as one unit). *)
Open Scope Z_scope.

Definition byte (a : Ascii.ascii) : Z := Z.of_nat (Ascii.nat_of_ascii a).

Fixpoint utf16_units (s : string) : list Z :=
  match s with
  | EmptyString => []
  | String a r =>
      let b := byte a in
      if Z.ltb b 128 then b :: utf16_units r
      else if Z.ltb b 224 then
        match r with
        | String a2 r2 => ((b - 192) * 64 + (byte a2 - 128)) :: utf16_units r2
        | EmptyString => b :: utf16_units r
        end
      else if Z.ltb b 240 then
        match r with
        | String a2 (String a3 r3) =>
            ((b - 224) * 4096 + (byte a2 - 128) * 64 + (byte a3 - 128))
              :: utf16_units r3
        | _ => b :: utf16_units r
        end
      else
        match r with
        | String a2 (String a3 (String a4 r4)) =>
            let cp := (b - 240) * 262144 + (byte a2 - 128) * 4096
                      + (byte a3 - 128) * 64 + (byte a4 - 128) in
            (55296 + Z.shiftr (cp - 65536) 10)
              :: (56320 + Z.land (cp - 65536) 1023) :: utf16_units r4
        | _ => b :: utf16_units r
        end
  end.

(** Code units back to bytes: a surrogate pair as the four-byte sequence of
    its code point, any other unit (a lone surrogate too, as left by a
    [slice] that ends inside a pair) as its one- to three-byte sequence. *)
Definition byte_of (z : Z) : Ascii.ascii := Ascii.ascii_of_nat (Z.to_nat z).

Definition utf8_of_unit (u : Z) : string :=
  if Z.ltb u 128 then String (byte_of u) EmptyString
  else if Z.ltb u 2048 then
    String (byte_of (192 + u / 64)) (String (byte_of (128 + u mod 64)) EmptyString)
  else
    String (byte_of (224 + u / 4096))
      (String (byte_of (128 + (u / 64) mod 64))
         (String (byte_of (128 + u mod 64)) EmptyString)).

Definition utf8_of_pair (hi lo : Z) : string :=
  let cp := 65536 + (hi - 55296) * 1024 + (lo - 56320) in
  String (byte_of (240 + cp / 262144))
    (String (byte_of (128 + (cp / 4096) mod 64))
       (String (byte_of (128 + (cp / 64) mod 64))
          (String (byte_of (128 + cp mod 64)) EmptyString))).

Definition is_high_surrogate (u : Z) : bool := Z.leb 55296 u && Z.leb u 56319.
Definition is_low_surrogate (u : Z) : bool := Z.leb 56320 u && Z.leb u 57343.

Fixpoint utf8_of_units (us : list Z) : string :=
  match us with
  | [] => EmptyString
  | u :: rest =>
      if is_high_surrogate u then
        match rest with
        | lo :: rest' =>
            if is_low_surrogate lo then utf8_of_pair u lo ++ utf8_of_units rest'
            else utf8_of_unit u ++ utf8_of_units rest
        | [] => utf8_of_unit u
        end
      else utf8_of_unit u ++ utf8_of_units rest
  end.

Close Scope Z_scope.

(** [text.slice(0, 10) + (text.length > 10 ? '...' : '')]. *)
Definition deriveTitle (text : string) : string :=
  let units := utf16_units text in
  utf8_of_units (firstn 10 units)
  ++ (if Nat.ltb 10 (length units) then "..." else "").

(** The first [setSessions] of [handleSendMessage]. *)
Definition appendUserMessage (cur text : string) (userMessage : Message.t)
  (session : ChatSession.t) : ChatSession.t :=
  if String.eqb (ChatSession.id session) cur then
    let isFirstUserMessage :=
      Nat.leb (length (ChatSession.messages session)) 1 in
    let newTitle :=
      if String.eqb (ChatSession.title session) DEFAULT_TITLE
         && isFirstUserMessage
      then deriveTitle text else ChatSession.title session in
    ChatSession.mk (ChatSession.id session) newTitle
      (ChatSession.createdAt session)
      (ChatSession.messages session ++ [userMessage])
  else session.

Definition withFeedback (m : Message.t) (fb : FeedbackData.t) : Message.t :=
  Message.mk (Message.id m) (Message.sender m) (Message.text m)
    (Message.timestamp m) (Some fb) (Message.translation m).

Definition replaceMessages (s : ChatSession.t) (ms : list Message.t)
  : ChatSession.t :=
  ChatSession.mk (ChatSession.id s) (ChatSession.title s)
    (ChatSession.createdAt s) ms.

(** What [handleSendMessage] has captured when it suspends on
    [await sendMessageToTutor(apiHistory, text)]. *)
Record SendCtx := mkSendCtx {
  ctx_session : string;          (* currentSessionId of the closure *)
  ctx_seenPlaying : option string; (* currentlyPlayingId of the closure *)
  ctx_text : string;
  ctx_newMessageId : string
}.

(** [handleSendMessage(text)] up to the tutor call. *)
Definition handleSendMessage_start (text : string) : M (option SendCtx) :=
  cur ← gets currentSessionId;
  if String.eqb cur "" then mret None else
  seen ← gets currentlyPlayingId;
  messages ← gets current_messages;
  stopAudio ;;
  t0 ← now;
  let newMessageId := toString t0 in
  ts ← now;
  let userMessage := Message.mk newMessageId USER text ts None None in
  setIsLoading true ;;
  setSessions (map (appendUserMessage cur text userMessage)) ;;
  modify (upd_tutorLog (apiHistory_of messages userMessage, text)) ;;
  mret (Some (mkSendCtx cur seen text newMessageId)).

(** The success branch: the [setSessions] updater, for one session. *)
Definition attachReply (ctx : SendCtx) (r : TutorResponse.t)
  (session : ChatSession.t) : M ChatSession.t :=
  if String.eqb (ChatSession.id session) (ctx_session ctx) then
    let fb := FeedbackData.mk (ctx_text ctx)
                (TutorResponse.correctedSentence (TutorResponse.feedback r))
                (TutorResponse.explanation (TutorResponse.feedback r))
                (TutorResponse.naturalnessScore (TutorResponse.feedback r)) in
    let updatedMessages :=
      map (fun m => if String.eqb (Message.id m) (ctx_newMessageId ctx)
                    then withFeedback m fb else m)
        (ChatSession.messages session) in
    t ← now;
    let aiMessageId := toString (t + 1) in
    ts ← now;
    let aiMessage := Message.mk aiMessageId AI (TutorResponse.reply r) ts None
                       (Some (TutorResponse.replyTranslation r)) in
    mret (replaceMessages session (updatedMessages ++ [aiMessage]))
  else mret session.

(** The [catch] branch: the fallback message. *)
Definition appendError (cur : string) (errorMessage : Message.t)
  (session : ChatSession.t) : ChatSession.t :=
  if String.eqb (ChatSession.id session) cur then
    replaceMessages session (ChatSession.messages session ++ [errorMessage])
  else session.

(** The rest of [handleSendMessage], when the tutor call settles: [Some r]
    when it resolves to [r], [None] when it rejects. *)
Definition handleSendMessage_finish (ctx : SendCtx)
  (outcome : option TutorResponse.t) : M unit :=
  match outcome with
  | Some r =>
      t ← now;
      let aiMsgId := toString (t + 1) in
      handlePlayAudio (ctx_seenPlaying ctx) (TutorResponse.reply r) aiMsgId ;;
      setIsLoading false ;;
      (* the render: the queued updater of line 209 runs now, after the
         [Date.now()] of line 242 *)
      setSessionsM (mapS (attachReply ctx r))
  | None =>
      t ← now; ts ← now;
      let errorMessage := Message.mk (toString t) AI ERROR_TEXT ts None None in
      setSessions (map (appendError (ctx_session ctx) errorMessage)) ;;
      setIsLoading false
  end.

(** A whole turn: no other event runs while the tutor call is pending. *)
Definition handleSendMessage (text : string)
  (outcome : option TutorResponse.t) : M unit :=
  ctx ← handleSendMessage_start text;
  match ctx with
  | Some c => handleSendMessage_finish c outcome
  | None => mret tt
  end.

(** The state of a freshly mounted [App] (before its mount effects), with
    the clock [c]. *)
Definition initialApp (c : nat -> Z) : App :=
  mkApp [] [] "" false None None None ∅ c 0 0 0 [] [] [] [].

Definition is_stop (e : AudioEvent) : bool :=
  match e with SourceStopped _ => true | _ => false end.

(** Sample inputs.  [clk_tick7] reads 1000 for the first seven clock reads
    and 1001 afterwards (the clock passes a millisecond boundary). *)
Definition clk_const : nat -> Z := fun _ => 1000%Z.
Definition clk_tick7 : nat -> Z :=
  fun n => if Nat.ltb n 7 then 1000%Z else 1001%Z.

(** [clk_tick6] passes the boundary at the seventh read; [clk_step] reads
    1000, 1001, 1002, ... *)
Definition clk_tick6 : nat -> Z :=
  fun n => if Nat.ltb n 6 then 1000%Z else 1001%Z.
Definition clk_step : nat -> Z := fun n => (1000 + Z.of_nat n)%Z.

Definition greeting_response : TutorResponse.t :=
  TutorResponse.mk "こんにちは！" "你好！"
    (TutorResponse.mkFeedback "こんにちは" "完美" 100).

(** The session-store operations of the spec: createSession,
    selectSession, clearAll, and the mutations of a turn (appending the
    user message; attaching feedback and appending the reply or the
    fallback message). *)
Inductive SessionOp :=
| OpNewChat
| OpSelect (id : string)
| OpClearAll
| OpSendStart (text : string)
| OpSendFinish (ctx : SendCtx) (outcome : option TutorResponse.t)
| OpSend (text : string) (outcome : option TutorResponse.t).

Definition session_op (op : SessionOp) : M unit :=
  match op with
  | OpNewChat => handleNewChat
  | OpSelect id => selectSession id
  | OpClearAll => handleClearAllSessions
  | OpSendStart text => handleSendMessage_start text ;; mret tt
  | OpSendFinish ctx outcome => handleSendMessage_finish ctx outcome
  | OpSend text outcome => handleSendMessage text outcome
  end.

(** A session with the welcome message and 20 exchanged messages, ids
    ["1"] to ["20"], alternating user and tutor, active in [long_state]. *)
Definition welcome_at (ts : Z) : Message.t :=
  Message.mk "welcome" AI WELCOME_TEXT ts None (Some WELCOME_TRANSLATION).

Definition sample_prior (n : nat) : list Message.t :=
  map (fun i => Message.mk (toString (Z.of_nat (S i)))
                  (if Nat.even i then USER else AI)
                  ("発話" ++ toString (Z.of_nat i)) 0 None None)
    (seq 0 n).

Definition long_session : ChatSession.t :=
  ChatSession.mk "1" "会話" 0 (welcome_at 0 :: sample_prior 20).

Definition long_state : App :=
  mkApp [long_session] [] "1" false None None None ∅ clk_const 0 0 0
    [] [] [] [].

(** The state after the first mount: one fresh session, active. *)
Definition first_state : App :=
  run (event initFirstSession) (initialApp clk_const).

Definition first_session : ChatSession.t :=
  ChatSession.mk "1000" DEFAULT_TITLE 1000 [welcome_at 1000].

(** ** src/App.tsx: loading the stored collections on mount *)

(** Effect 1, [Load Sessions]: a stored list is hydrated and its first
    session made active; an empty list, a missing key or a parse failure
    falls back to [initFirstSession].  A bookmark list under this key (never
    written by the client) parses, but [s.messages.map] throws on its
    records when it is not empty: both cases reach [initFirstSession]. *)
Definition loadSessions : M unit :=
  saved ← gets (fun st => storage st !! LOCAL_STORAGE_KEY);
  match saved with
  | Some (StoredSessions hydratedSessions) =>
      match hydratedSessions with
      | first :: _ =>
          setSessions (fun _ => hydratedSessions) ;;
          setCurrentSessionId (ChatSession.id first)
      | [] => initFirstSession
      end
  | Some (StoredSentences _) => initFirstSession
  | None => initFirstSession
  end.

(** Effect 2, [Load Saved Sentences].  Not modelled: a session list under
    this key, which the client never writes there.  The code would put its
    parse, a list of session objects, into the bookmark state, which the
    model's bookmark type cannot hold; in that case the model leaves the
    state unchanged. *)
Definition loadSavedSentences : M unit :=
  saved ← gets (fun st => storage st !! SAVED_SENTENCES_KEY);
  match saved with
  | Some (StoredSentences l) => setSavedSentences (fun _ => l)
  | _ => mret tt
  end.

(** Effects 3 and 4 run with the values [ss] and [sv] of one render. *)
Definition persistValues (ss : list ChatSession.t) (sv : list SavedSentence.t)
  : M unit :=
  modify (upd_storage (fun m =>
    let m' := if Nat.ltb 0 (length ss)
              then <[LOCAL_STORAGE_KEY := StoredSessions ss]> m else m in
    <[SAVED_SENTENCES_KEY := StoredSentences sv]> m')).

(** The first commit of [App]: effects 1 to 4 run in order with the values
    of the first render (the setters of effects 1 and 2 take effect at the
    next render), then the next render's effects write the loaded
    collections back. *)
Definition mount : M unit :=
  ss ← gets sessions; sv ← gets savedSentences;
  loadSessions ;; loadSavedSentences ;;
  persistValues ss sv ;;
  persistEffects.

(** A fresh [App] over the clock [c] and the stored documents [stg]. *)
Definition freshApp (c : nat -> Z) (stg : gmap string Stored) : App :=
  mkApp [] [] "" false None None None stg c 0 0 0 [] [] [] [].

(** ** src/services/geminiService.ts *)

(** [sendMessageToTutor(history, currentMessage)]: the [contents] of the
    request, [[...history, { role: 'user', parts: [{ text: currentMessage }] }]]. *)
Definition tutorContents (history : list ApiContent) (currentMessage : string)
  : list ApiContent :=
  history ++ [mkContent RoleUser [currentMessage]].

(** ** src/components/VoiceInput.tsx: the component *)

Module VoiceInputComponent.

Inductive RecognitionCall := RecStart | RecStop.

(** The component's state: [inputText], [isListening], [errorMessage]
    ([useState]), [baseTextRef.current], whether [recognitionRef.current]
    is set, and the calls made to the recognition object and to [onSend]. *)
Record t := mk {
  inputText : string;
  isListening : bool;
  errorMessage : option string;
  baseText : string;
  recognition : bool;
  calls : list RecognitionCall;
  sent : list string
}.

Definition initial : t := mk "" false None "" false [] [].

Definition setInputText (v : string) (s : t) : t :=
  mk v (isListening s) (errorMessage s) (baseText s) (recognition s)
    (calls s) (sent s).
Definition setIsListening (b : bool) (s : t) : t :=
  mk (inputText s) b (errorMessage s) (baseText s) (recognition s)
    (calls s) (sent s).
Definition setErrorMessage (e : option string) (s : t) : t :=
  mk (inputText s) (isListening s) e (baseText s) (recognition s)
    (calls s) (sent s).
Definition setBaseText (v : string) (s : t) : t :=
  mk (inputText s) (isListening s) (errorMessage s) v (recognition s)
    (calls s) (sent s).
Definition setRecognition (s : t) : t :=
  mk (inputText s) (isListening s) (errorMessage s) (baseText s) true
    (calls s) (sent s).
Definition callRecognition (c : RecognitionCall) (s : t) : t :=
  mk (inputText s) (isListening s) (errorMessage s) (baseText s)
    (recognition s) (calls s ++ [c]) (sent s).
Definition onSend (v : string) (s : t) : t :=
  mk (inputText s) (isListening s) (errorMessage s) (baseText s)
    (recognition s) (calls s) (sent s ++ [v]).

Definition UNSUPPORTED_MESSAGE : string :=
  "您的浏览器不支持语音识别，请使用 Chrome 或 Safari。".
Definition START_FAILED_MESSAGE : string := "启动录音失败，请刷新页面重试。".
Definition AUDIO_CAPTURE_MESSAGE : string :=
  "未检测到麦克风或麦克风被占用。请检查设备连接。".
Definition NOT_ALLOWED_MESSAGE : string :=
  "麦克风权限被拒绝。请点击浏览器地址栏的锁图标允许访问麦克风。".
Definition SERVICE_NOT_ALLOWED_MESSAGE : string :=
  "语音识别服务不可用，请尝试使用 Chrome 浏览器。".
Definition NETWORK_MESSAGE : string := "网络连接问题，语音识别需要联网。".
Definition GENERIC_ERROR_PREFIX : string := "语音识别错误: ".

(** The [switch (event.error)] of [recognition.onerror]: the message set,
    or [None] for ['no-speech'], which returns without setting one. *)
Definition errorMessageFor (code : string) : option string :=
  if String.eqb code "audio-capture" then Some AUDIO_CAPTURE_MESSAGE
  else if String.eqb code "not-allowed" then Some NOT_ALLOWED_MESSAGE
  else if String.eqb code "no-speech" then None
  else if String.eqb code "service-not-allowed"
  then Some SERVICE_NOT_ALLOWED_MESSAGE
  else if String.eqb code "network" then Some NETWORK_MESSAGE
  else Some (GENERIC_ERROR_PREFIX ++ code).

(** The mount effect: [supported] when [SpeechRecognition] or
    [webkitSpeechRecognition] exists. *)
Definition mountEffect (supported : bool) (s : t) : t :=
  if supported then setRecognition s
  else setErrorMessage (Some UNSUPPORTED_MESSAGE) s.

(** [recognition.onresult], with the transcripts of [event.results]. *)
Definition onresult (results : list string) (s : t) : t :=
  setErrorMessage None
    (setInputText (VoiceInput.onresult (baseText s) results) s).

Definition onend (s : t) : t := setIsListening false s.

Definition onerror (code : string) (s : t) : t :=
  let s1 := setIsListening false s in
  match errorMessageFor code with
  | Some m => setErrorMessage (Some m) s1
  | None => s1
  end.

(** [toggleListening]; [startOk] is false when [recognition.start()]
    throws. *)
Definition toggleListening (disabled startOk : bool) (s : t) : t :=
  let s1 := setErrorMessage None s in
  if disabled || negb (recognition s1) then s1
  else if isListening s1 then setIsListening false (callRecognition RecStop s1)
  else
    let s2 := callRecognition RecStart (setBaseText (inputText s1) s1) in
    if startOk then setIsListening true s2
    else setIsListening false (setErrorMessage (Some START_FAILED_MESSAGE) s2).

(** [inputText.trim()] is the empty string: every code point is a
    WhiteSpace or LineTerminator of ECMAScript, read on the UTF-8 bytes
    (TAB to CR, SPACE; U+00A0; U+1680; U+2000 to U+200A, U+2028, U+2029,
    U+202F, U+205F; U+3000; U+FEFF). *)
Definition ws1 (a : Ascii.ascii) : bool :=
  let x := Ascii.nat_of_ascii a in
  (Nat.leb 9 x && Nat.leb x 13) || Nat.eqb x 32.

Definition ws2 (a b : Ascii.ascii) : bool :=
  Nat.eqb (Ascii.nat_of_ascii a) 194 && Nat.eqb (Ascii.nat_of_ascii b) 160.

Definition ws3 (a b c : Ascii.ascii) : bool :=
  let x := Ascii.nat_of_ascii a in
  let y := Ascii.nat_of_ascii b in
  let z := Ascii.nat_of_ascii c in
  (Nat.eqb x 225 && Nat.eqb y 154 && Nat.eqb z 128)
  || (Nat.eqb x 226 && Nat.eqb y 128
      && ((Nat.leb 128 z && Nat.leb z 138) || Nat.eqb z 168
          || Nat.eqb z 169 || Nat.eqb z 175))
  || (Nat.eqb x 226 && Nat.eqb y 129 && Nat.eqb z 159)
  || (Nat.eqb x 227 && Nat.eqb y 128 && Nat.eqb z 128)
  || (Nat.eqb x 239 && Nat.eqb y 187 && Nat.eqb z 191).

Fixpoint trimIsEmpty (s : string) : bool :=
  match s with
  | EmptyString => true
  | String a rest =>
      if ws1 a then trimIsEmpty rest else
      match rest with
      | String b rest2 =>
          if ws2 a b then trimIsEmpty rest2 else
          match rest2 with
          | String c rest3 => if ws3 a b c then trimIsEmpty rest3 else false
          | EmptyString => false
          end
      | EmptyString => false
      end
  end.

(** [handleSend]; [disabled] is the prop. *)
Definition handleSend (disabled : bool) (s : t) : t :=
  let s1 := if isListening s && recognition s
            then setIsListening false (callRecognition RecStop s) else s in
  if negb (trimIsEmpty (inputText s)) && negb disabled then
    setErrorMessage None (setBaseText "" (setInputText ""
      (onSend (inputText s) s1)))
  else s1.

(** [handleKeyDown]: Shift+Enter sends. *)
Definition handleKeyDown (key : string) (shiftKey disabled : bool) (s : t)
  : t :=
  if String.eqb key "Enter" && shiftKey then handleSend disabled s else s.

(** The textarea's [onChange]. *)
Definition onChange (v : string) (s : t) : t :=
  let s1 := setInputText v s in
  if isListening s then s1 else setBaseText v s1.

End VoiceInputComponent.

(** ** src/components/SavedSentencesView.tsx *)

Module SavedSentencesView.

Inductive Mode := ListMode | ReviewMode.

(** The [isOpen] prop and the component's [mode], [reviewIndex] and
    [isFlipped]; the component stays mounted while closed. *)
Record t := mk {
  isOpen : bool;
  mode : Mode;
  reviewIndex : Z;
  isFlipped : bool
}.

Definition initial : t := mk false ListMode 0 false.

Definition mode_eqb (a b : Mode) : bool :=
  match a, b with
  | ListMode, ListMode | ReviewMode, ReviewMode => true
  | _, _ => false
  end.

(** [(prev + 1) % savedSentences.length] and
    [(prev - 1 + savedSentences.length) % savedSentences.length]; JavaScript's
    [%] truncates like [Z.rem].  Both controls are rendered only when the
    collection is not empty. *)
Definition handleNext (len : nat) (prev : Z) : Z :=
  Z.rem (prev + 1) (Z.of_nat len).

Definition handlePrev (len : nat) (prev : Z) : Z :=
  Z.rem (prev - 1 + Z.of_nat len) (Z.of_nat len).

(** What can happen to the view: [onOpenSaved] and [onClose]; the two mode
    buttons; the review controls (previous, next, the card); a list item's
    delete button ([handleDeleteSentence]); a bookmark added from the chat
    ([handleSaveSentence] prepends the new record). *)
Inductive Event :=
| Open | Close
| ShowList | ShowReview
| Next | Prev | Flip
| Delete (id : string)
| Save (s : SavedSentence.t).

(** One event; a click on a control that is not rendered changes nothing.
    The header is rendered while open; the list and the review controls
    only when the collection is not empty. *)
Definition step (e : Event) (st : t * list SavedSentence.t)
  : t * list SavedSentence.t :=
  let '(v, l) := st in
  let shown := isOpen v && Nat.ltb 0 (length l) in
  match e with
  | Open => (mk true (mode v) (reviewIndex v) (isFlipped v), l)
  | Close => (mk false (mode v) (reviewIndex v) (isFlipped v), l)
  | ShowList =>
      if isOpen v then (mk true ListMode (reviewIndex v) (isFlipped v), l)
      else (v, l)
  | ShowReview => if isOpen v then (mk true ReviewMode 0 false, l) else (v, l)
  | Next =>
      if shown && mode_eqb (mode v) ReviewMode
      then (mk true ReviewMode (handleNext (length l) (reviewIndex v)) false, l)
      else (v, l)
  | Prev =>
      if shown && mode_eqb (mode v) ReviewMode
      then (mk true ReviewMode (handlePrev (length l) (reviewIndex v)) false, l)
      else (v, l)
  | Flip =>
      if shown && mode_eqb (mode v) ReviewMode
      then (mk true ReviewMode (reviewIndex v) (negb (isFlipped v)), l)
      else (v, l)
  | Delete id =>
      if shown && mode_eqb (mode v) ListMode
         && existsb (fun s => String.eqb (SavedSentence.id s) id) l
      then (v, List.filter (fun s => negb (String.eqb (SavedSentence.id s) id)) l)
      else (v, l)
  | Save s => (v, s :: l)
  end.

Definition run_view (evs : list Event) (st : t * list SavedSentence.t)
  : t * list SavedSentence.t :=
  fold_left (fun acc e => step e acc) evs st.

(** The card shown in review mode: [savedSentences[reviewIndex]]. *)
Definition reviewCard (v : t) (l : list SavedSentence.t)
  : option SavedSentence.t :=
  nth_error l (Z.to_nat (reviewIndex v)).

(** [handleExportMarkdown]: the document built before it is downloaded;
    [date] is [new Date().toLocaleString()]. *)
Definition LF : string := String (Ascii.ascii_of_nat 10) EmptyString.

Definition sourceLabel (s : SentenceSource) : string :=
  match s with
  | AIReply => "AI回复"
  | AICorrection => "AI修正"
  | ManualSelection => "手动选择"
  end.

(** [if (x)] on an optional string: present and not empty. *)
Definition truthy (o : option string) : option string :=
  match o with
  | Some x => if String.eqb x "" then None else Some x
  | None => None
  end.

(** The body of [savedSentences.forEach((item, index) => ...)]. *)
Definition exportItem (index : nat) (item : SavedSentence.t) (md : string)
  : string :=
  let md := md ++ "### " ++ toString (Z.of_nat (index + 1)) ++ ". "
               ++ sourceLabel (SavedSentence.source item) ++ LF in
  let md := md ++ "**原文**: " ++ SavedSentence.original item ++ LF ++ LF in
  let md := match truthy (SavedSentence.translation item) with
            | Some tr => md ++ "**翻译**: " ++ tr ++ LF ++ LF
            | None => md
            end in
  let md := match truthy (SavedSentence.note item) with
            | Some n => md ++ "> 备注: " ++ n ++ LF ++ LF
            | None => md
            end in
  md ++ "---" ++ LF ++ LF.

Fixpoint exportLoop (index : nat) (items : list SavedSentence.t) (md : string)
  : string :=
  match items with
  | [] => md
  | item :: rest => exportLoop (S index) rest (exportItem index item md)
  end.

Definition handleExportMarkdown (date : string) (items : list SavedSentence.t)
  : string :=
  let md := "# 日语学习收藏本" ++ LF ++ LF in
  let md := md ++ "导出时间: " ++ date ++ LF ++ LF in
  exportLoop 0 items md.

End SavedSentencesView.

(** * Theorems *)

(** ** String lemmas *)

(** stdpp declares [String.append] [simpl never]; its two equations. *)
Lemma str_app_nil_l (b : string) : "" ++ b = b.
Proof. reflexivity. Qed.

Lemma str_app_cons (c : Ascii.ascii) (a b : string) :
  String c a ++ b = String c (a ++ b).
Proof. reflexivity. Qed.

Ltac str_simpl := repeat rewrite ?str_app_nil_l, ?str_app_cons.

Lemma str_app_assoc (a b c : string) : (a ++ b) ++ c = a ++ (b ++ c).
Proof.
  induction a as [|x a IH]; str_simpl; [reflexivity | now rewrite IH].
Qed.

Lemma str_app_nil_r (a : string) : a ++ "" = a.
Proof. induction a as [|x a IH]; str_simpl; [reflexivity | now rewrite IH]. Qed.

Lemma endsWith_cons (c : Ascii.ascii) (s x : string) :
  endsWith (String c s) x = String.eqb (String c s) x || endsWith s x.
Proof. reflexivity. Qed.

Lemma endsWith_spec (s x : string) :
  endsWith s x = true <-> exists p, s = p ++ x.
Proof.
  induction s as [|c s IH].
  - change (endsWith "" x) with (String.eqb "" x || false).
    rewrite orb_false_r, String.eqb_eq. split.
    + intros <-. now exists "".
    + intros [p Hp]. destruct p; str_simpl; [now subst|discriminate].
  - rewrite endsWith_cons, orb_true_iff, String.eqb_eq, IH. split.
    + intros [<-|[p Hp]].
      * now exists "".
      * exists (String c p). str_simpl. now rewrite Hp.
    + intros [p Hp]. destruct p as [|c' p]; str_simpl.
      * left. now subst.
      * right. injection Hp as -> Hs. now exists p.
Qed.

(** ** Transcript assembler *)

Module VoiceInputFacts.
Import VoiceInput.

Lemma transcript_loop_later (rs : list string) (i : nat) (acc : string) :
  transcript_loop (S i) rs acc
  = acc ++ fold_right (fun r a => " " ++ (r ++ a)) "" rs.
Proof.
  revert i acc. induction rs as [|r rs IH]; intros i acc; simpl.
  - now rewrite str_app_nil_r.
  - rewrite IH. rewrite !str_app_assoc. reflexivity.
Qed.

Lemma newVoiceTranscript_concat (rs : list string) :
  newVoiceTranscript rs = String.concat " " rs.
Proof.
  unfold newVoiceTranscript. destruct rs as [|r rs]; [reflexivity|].
  simpl. rewrite transcript_loop_later. simpl.
  revert r. induction rs as [|r' rs IH]; intros r; simpl.
  - apply str_app_nil_r.
  - rewrite <- IH. reflexivity.
Qed.

Definition ends_in_space_class (b : string) : Prop :=
  exists p, b = p ++ " " \/ b = p ++ ideographic_space.

Lemma needsSpace_spec (b : string) :
  needsSpace b = true <-> b <> "" /\ ~ ends_in_space_class b.
Proof.
  unfold needsSpace, ends_in_space_class.
  rewrite !andb_true_iff, !negb_true_iff, Nat.ltb_lt.
  split.
  - intros [[Hl H1] H2]. split.
    + intros ->. simpl in Hl. lia.
    + intros [p [Hp|Hp]].
      * assert (endsWith b " " = true) by (apply endsWith_spec; eauto).
        congruence.
      * assert (endsWith b ideographic_space = true)
          by (apply endsWith_spec; eauto).
        congruence.
  - intros [Hne Hend]. split; [split|].
    + destruct b; [congruence|]. simpl. lia.
    + destruct (endsWith b " ") eqn:E; [|reflexivity].
      apply endsWith_spec in E as [p Hp]. exfalso. eauto.
    + destruct (endsWith b ideographic_space) eqn:E; [|reflexivity].
      apply endsWith_spec in E as [p Hp]. exfalso. eauto.
Qed.

Lemma onresult_shape (b : string) (rs : list string) :
  exists sep, onresult b rs = b ++ (sep ++ String.concat " " rs)
    /\ (sep = "" \/ sep = " ")
    /\ (sep = " " <-> b <> "" /\ ~ ends_in_space_class b).
Proof.
  unfold onresult. rewrite newVoiceTranscript_concat.
  exists (if needsSpace b then " " else ""). split; [reflexivity|].
  rewrite <- needsSpace_spec.
  destruct (needsSpace b); split; auto; split; congruence.
Qed.

End VoiceInputFacts.

(** ** Claims about the transcript assembler *)

Module VoiceInputClaims.
Import VoiceInput VoiceInputFacts.

(** C3: a recording session that delivers no segment leaves the box
    holding the base text [B] unchanged, with no separator added.  The
    browser fires [onresult] only with at least one result, so zero
    segments means that [onresult] never runs: starting the recording
    takes the box content as [B], and ending it with the stop button, with
    [onend] or with [onerror] leaves the box as it was. *)
Theorem C3_zero_segments_keep_base (s : VoiceInputComponent.t)
  (code : string)
  (Hrec : VoiceInputComponent.recognition s = true)
  (Hidle : VoiceInputComponent.isListening s = false) :
  let s1 := VoiceInputComponent.toggleListening false true s in
  let b := VoiceInputComponent.baseText s1 in
  b = VoiceInputComponent.inputText s
  /\ VoiceInputComponent.isListening s1 = true
  /\ VoiceInputComponent.inputText
       (VoiceInputComponent.toggleListening false true s1) = b
  /\ VoiceInputComponent.inputText (VoiceInputComponent.onend s1) = b
  /\ VoiceInputComponent.inputText (VoiceInputComponent.onerror code s1) = b.
Proof.
  destruct s as [i l e bt r cs sn]; simpl in Hrec, Hidle; subst r l.
  unfold VoiceInputComponent.toggleListening, VoiceInputComponent.onerror.
  simpl. split; [reflexivity|]. split; [reflexivity|].
  split; [reflexivity|]. split; [reflexivity|].
  destruct (VoiceInputComponent.errorMessageFor code); reflexivity.
Qed.

Lemma C3_zero_segments_keep_base_witness :
  let s := VoiceInputComponent.onChange "日本語"
             (VoiceInputComponent.mountEffect true VoiceInputComponent.initial) in
  VoiceInputComponent.recognition s = true
  /\ VoiceInputComponent.isListening s = false
  /\ VoiceInputComponent.inputText
       (VoiceInputComponent.onend
          (VoiceInputComponent.toggleListening false true s)) = "日本語".
Proof.
  intros s.
  assert (Hr : VoiceInputComponent.recognition s = true) by reflexivity.
  assert (Hl : VoiceInputComponent.isListening s = false) by reflexivity.
  split; [exact Hr|]. split; [exact Hl|].
  destruct (C3_zero_segments_keep_base s "network" Hr Hl)
    as (Hb & _ & _ & He & _).
  rewrite He, Hb. reflexivity.
Defined.

(** C4: the assembled text is the base text verbatim, then a separator
    that is either empty or one space, then the segments in arrival order
    joined by single spaces; the separator is a space exactly when the base
    text is non-empty and does not end in a space-class character (the
    ASCII space or the ideographic space U+3000, the two the handler
    checks). *)
Theorem C4_assemble_shape (b : string) (segments : list string) :
  exists sep, onresult b segments = b ++ (sep ++ String.concat " " segments)
    /\ (sep = "" \/ sep = " ")
    /\ (sep = " " <-> b <> "" /\ ~ ends_in_space_class b).
Proof. apply onresult_shape. Qed.

End VoiceInputClaims.

(** ** Unfolding client code *)

Ltac unfold_M :=
  cbv beta iota zeta delta [run event mbind M_bind mret M_ret gets modify
    now setSessions setSessionsM setSavedSentences setCurrentSessionId
    setIsLoading setToastMessage setCurrentlyPlayingId setSourceNodeRef
    stopNode createBufferSource startNode requestSpeech removePending
    stopAudio handlePlayAudio audioReady audioEnded play persistEffects];
  cbn.

(** ** Frame lemmas: a computation that leaves a part of the state alone *)

Definition keeps {B A} (f : App -> B) (m : M A) : Prop :=
  forall st, f (snd (m st)) = f st.

Section Keeps.
Context {B : Type} (f : App -> B).

Lemma keeps_ret {A} (a : A) : keeps f (mret a).
Proof. intros st. reflexivity. Qed.

Lemma keeps_bind {A C} (m : M A) (k : A -> M C) :
  keeps f m -> (forall a, keeps f (k a)) -> keeps f (m ≫= k).
Proof.
  intros Hm Hk st. unfold mbind, M_bind. specialize (Hm st).
  destruct (m st) as [a st'] eqn:E. simpl in Hm. rewrite Hk. exact Hm.
Qed.

Lemma keeps_gets {A} (g : App -> A) : keeps f (gets g).
Proof. intros st. reflexivity. Qed.

Lemma keeps_modify (g : App -> App) :
  (forall st, f (g st) = f st) -> keeps f (modify g).
Proof. intros H st. apply H. Qed.

Lemma keeps_now : (forall st n, f (upd_ticks n st) = f st) -> keeps f now.
Proof. intros H st. apply H. Qed.

Lemma keeps_mapS {X Y} (g : X -> M Y) (l : list X) :
  (forall x, keeps f (g x)) -> keeps f (mapS g l).
Proof.
  intros Hg. induction l as [|x l IH]; simpl.
  - apply keeps_ret.
  - apply keeps_bind; [apply Hg|]. intros y.
    apply keeps_bind; [exact IH|]. intros ys. apply keeps_ret.
Qed.

Lemma keeps_setSessionsM (g : list ChatSession.t -> M (list ChatSession.t)) :
  (forall l, keeps f (g l)) ->
  (forall st l, f (upd_sessions (fun _ => l) st) = f st) ->
  keeps f (setSessionsM g).
Proof.
  intros Hg Hu st. unfold setSessionsM.
  specialize (Hg (sessions st) st).
  destruct (g (sessions st) st) as [l st'] eqn:E. simpl in *.
  rewrite Hu. exact Hg.
Qed.

End Keeps.

Ltac head_of t := match t with ?g _ => head_of g | _ => t end.

Ltac keeps_step :=
  match goal with
  | |- keeps _ (mbind _ _) => apply keeps_bind; [|intro]
  | |- keeps _ (mret _) => apply keeps_ret
  | |- keeps _ (gets _) => apply keeps_gets
  | |- keeps _ (modify _) => apply keeps_modify; intro; reflexivity
  | |- keeps _ now => apply keeps_now; intros; reflexivity
  | |- keeps _ (mapS _ _) => apply keeps_mapS; intro
  | |- keeps _ (setSessionsM _) =>
      apply keeps_setSessionsM; [intro|intros; reflexivity]
  | |- keeps _ (if ?b then _ else _) => destruct b
  | |- keeps _ (match ?x with _ => _ end) => destruct x
  | |- keeps _ ?c => let h := head_of c in progress (unfold h)
  end.

Ltac keeps_tac := repeat keeps_step.

(** Every session-store operation leaves the bookmark collection alone. *)
Lemma session_op_keeps_saved (op : SessionOp) :
  keeps savedSentences (session_op op).
Proof.
  destruct op; unfold session_op; keeps_tac.
Qed.

(** ** Claims about the playback controller and the orchestrator *)

Module PlaybackClaims.

(** C5 (as stated, refuted): two [play "x" "m"] calls in a row from Idle
    end Idle, but no stop call reaches an audio source: the first call's
    speech request is still pending, so no source exists yet. *)
Lemma C5_counterexample :
  let st := run (play "x" "m" ;; play "x" "m") (initialApp clk_const) in
  playback_state st = Idle
  /\ List.filter is_stop (audioLog st) = []
  /\ pending st = [mkPending 0 "x" "m"].
Proof. vm_compute. repeat split. Qed.

Lemma find_app_last {A} (f : A -> bool) (l : list A) (x : A) :
  f x = true -> exists y, find f (l ++ [x]) = Some y.
Proof.
  intros Hx. induction l as [|a l IH]; simpl.
  - rewrite Hx. eauto.
  - destruct (f a); eauto.
Qed.

(** C5 (amended): from Idle (no current id, no source), [play text m]
    whose audio gets started, followed by [play text m] while that audio
    still sounds, issues exactly one stop call (on the started source) and
    returns the controller to Idle. *)
Theorem C5_toggle_after_start (st : App) (text m : string) :
  currentlyPlayingId st = None -> sourceNodeRef st = None ->
  let st3 := run (play text m ;; audioReady (nextReq st) true ;; play text m)
               st in
  playback_state st3 = Idle /\ sourceNodeRef st3 = None
  /\ audioLog st3 = (audioLog st ++ [SpeechRequested text;
                                     SourceStarted (nextNode st);
                                     SourceStopped (nextNode st)])%list
  /\ ~ In (nextNode st) (sounding st3).
Proof.
  destruct st; simpl; intros -> ->.
  destruct (find_app_last (fun p => Nat.eqb (req p) nextReq0) pending0
              (mkPending nextReq0 text m)) as [y Hy];
    [apply Nat.eqb_refl|].
  unfold_M.
  rewrite Hy; cbn. rewrite String.eqb_refl; cbn.
  split; [reflexivity|]. split; [reflexivity|].
  split; [now rewrite <- !app_assoc|].
  unfold remove_node. rewrite filter_In, Nat.eqb_refl. simpl. intros [_ H]. discriminate.
Qed.

Lemma C5_toggle_after_start_witness :
  let st := initialApp clk_const in
  currentlyPlayingId st = None /\ sourceNodeRef st = None
  /\ playback_state
       (run (play "x" "m" ;; audioReady (nextReq st) true ;; play "x" "m") st)
     = Idle.
Proof.
  split; [reflexivity|]. split; [reflexivity|].
  apply (C5_toggle_after_start (initialApp clk_const) "x" "m");
    reflexivity.
Defined.

(** C6 (code bug): while [Playing "Y"] with Y's speech request in flight,
    [play "b" "X"] issues no stop; when both requests resolve, both sources
    are started and sound at once, and no stop call was ever made. *)
Lemma C6_two_streams :
  let st1 := run (play "a" "Y") (initialApp clk_const) in
  let st := run (play "b" "X" ;; audioReady 0 true ;; audioReady 1 true) st1 in
  playback_state st1 = Playing "Y"
  /\ sounding st = [0; 1]
  /\ List.filter is_stop (audioLog st) = []
  /\ playback_state st = Playing "X".
Proof. vm_compute. repeat split. Qed.

End PlaybackClaims.

Module OrchestratorClaims.

(** C2 (code bug): on a new session, a successful turn leaves three
    messages, but the AI message's id and the played id come from two
    different [Date.now()] reads: line 242's, then the one in the
    [setSessions] updater, which React runs when it renders, after the
    handler has returned.  When the clock passes a millisecond between the
    two, the AI message gets id ["1002"] while playback is started for
    ["1001"], an id no message has. *)
Lemma C2_playback_id_mismatch :
  let st := run (event initFirstSession ;;
                 event (handleSendMessage "こんにちは" (Some greeting_response)))
              (initialApp clk_tick6) in
  map (fun s => map Message.id (ChatSession.messages s)) (sessions st)
    = [["welcome"; "1000"; "1002"]]
  /\ currentlyPlayingId st = Some "1001"
  /\ audioLog st = [SpeechRequested "こんにちは！"].
Proof. vm_compute. repeat split. Qed.

End OrchestratorClaims.

(** ** Claims about the session store and the bookmark store *)

Module StoreClaims.

Lemma persist_saved (st : App) :
  savedSentences (run persistEffects st) = savedSentences st
  /\ storage (run persistEffects st) !! SAVED_SENTENCES_KEY
     = Some (StoredSentences (savedSentences st)).
Proof.
  split; [reflexivity|]. cbn. apply lookup_insert_eq.
Qed.

(** C8: no session-store operation (createSession, selectSession,
    clearAll, or the mutations of a turn) changes the bookmark collection;
    its persisted copy afterwards is that same collection. *)
Theorem C8_session_ops_keep_bookmarks (op : SessionOp) (st : App) :
  let st' := run (event (session_op op)) st in
  savedSentences st' = savedSentences st
  /\ storage st' !! SAVED_SENTENCES_KEY
     = Some (StoredSentences (savedSentences st)).
Proof.
  pose proof (session_op_keeps_saved op st) as H.
  cbv beta zeta delta [run event mbind M_bind].
  destruct (session_op op st) as [a st1]. simpl in H. rewrite <- H.
  apply persist_saved.
Qed.

(** C7: after clearAll the collection holds exactly one session, whose
    messages are exactly the welcome message; it is the active session and
    the persisted collection is that one session. *)
Theorem C7_clearAll_single_welcome (st : App) :
  let st' := run (event handleClearAllSessions) st in
  exists s ts,
    sessions st' = [s]
    /\ ChatSession.messages s
       = [Message.mk "welcome" AI WELCOME_TEXT ts None
            (Some WELCOME_TRANSLATION)]
    /\ currentSessionId st' = ChatSession.id s
    /\ storage st' !! LOCAL_STORAGE_KEY = Some (StoredSessions [s]).
Proof.
  destruct st.
  cbv beta iota zeta delta [handleClearAllSessions initFirstSession
    createNewSession createWelcomeMessage].
  unfold_M.
  eexists; eexists; split; [reflexivity|]. split; [reflexivity|].
  split; [reflexivity|].
  rewrite lookup_insert_ne by discriminate. apply lookup_insert_eq.
Qed.

Lemma filter_keep_all {A} (f : A -> bool) (l : list A) :
  Forall (fun x => f x = true) l -> List.filter f l = l.
Proof.
  induction 1 as [|x l Hx _ IH]; simpl; [reflexivity|].
  now rewrite Hx, IH.
Qed.

(** C9: when the generated id [Date.now().toString()] does not occur in
    the collection, saving a sentence puts a record with that id in front,
    and deleting that id restores the collection, in order and content
    (the persisted copy too). *)
Theorem C9_save_delete_roundtrip (st : App) (text : string)
  (translation : option string) (source : SentenceSource) :
  Forall (fun s => SavedSentence.id s <> toString (clk st (ticks st)))
    (savedSentences st) ->
  let st1 := run (event (handleSaveSentence text translation source)) st in
  let st2 := run (event (handleDeleteSentence
                           (toString (clk st (ticks st))))) st1 in
  (exists r, savedSentences st1 = r :: savedSentences st
             /\ SavedSentence.id r = toString (clk st (ticks st)))
  /\ savedSentences st2 = savedSentences st
  /\ storage st2 !! SAVED_SENTENCES_KEY
     = Some (StoredSentences (savedSentences st)).
Proof.
  intros Hfresh.
  assert (Hkeep : List.filter
            (fun s => negb (String.eqb (SavedSentence.id s)
                              (toString (clk st (ticks st)))))
            (savedSentences st) = savedSentences st).
  { apply filter_keep_all. eapply Forall_impl; [exact Hfresh|].
    intros x Hx. apply negb_true_iff, String.eqb_neq. exact Hx. }
  destruct st; simpl in *.
  cbv beta iota zeta delta [handleSaveSentence handleDeleteSentence].
  unfold_M. rewrite String.eqb_refl. simpl. rewrite Hkeep.
  split; [eexists; split; reflexivity|]. split; [reflexivity|].
  apply lookup_insert_eq.
Qed.

Lemma C9_save_delete_roundtrip_witness :
  let st := run (event (handleSaveSentence "おはよう" (Some "早上好") AIReply) ;;
                 event (handleSaveSentence "ありがとう" None ManualSelection))
              (initialApp clk_step) in
  map SavedSentence.id (savedSentences st) = ["1002"; "1000"]
  /\ Forall (fun s => SavedSentence.id s <> toString (clk st (ticks st)))
       (savedSentences st)
  /\ savedSentences
       (run (event (handleDeleteSentence (toString (clk st (ticks st)))))
          (run (event (handleSaveSentence "元気です" (Some "我很好")
                         AICorrection)) st))
     = savedSentences st.
Proof.
  intros st.
  assert (Hids : map SavedSentence.id (savedSentences st) = ["1002"; "1000"])
    by (vm_compute; reflexivity).
  assert (Hfresh : Forall
            (fun s => SavedSentence.id s <> toString (clk st (ticks st)))
            (savedSentences st)).
  { vm_compute.
    constructor; [intros H; discriminate H|].
    constructor; [intros H; discriminate H|].
    constructor. }
  split; [exact Hids|]. split; [exact Hfresh|].
  destruct (C9_save_delete_roundtrip st "元気です" (Some "我很好") AICorrection
              Hfresh) as (_ & H & _).
  exact H.
Defined.

End StoreClaims.

Module TurnClaims.

Lemma find_map_same_id (g : ChatSession.t -> ChatSession.t)
  (l : list ChatSession.t) (cur : string) :
  (forall s, ChatSession.id (g s) = ChatSession.id s) ->
  find (fun s => String.eqb (ChatSession.id s) cur) (map g l)
  = option_map g (find (fun s => String.eqb (ChatSession.id s) cur) l).
Proof.
  intros Hg. induction l as [|s l IH]; simpl; [reflexivity|].
  rewrite Hg. destruct (String.eqb (ChatSession.id s) cur); [reflexivity|].
  exact IH.
Qed.

Lemma appendUserMessage_id cur text u s :
  ChatSession.id (appendUserMessage cur text u s) = ChatSession.id s.
Proof. unfold appendUserMessage. now destruct (String.eqb _ _). Qed.

Lemma appendError_id cur e s :
  ChatSession.id (appendError cur e s) = ChatSession.id s.
Proof. unfold appendError. now destruct (String.eqb _ _). Qed.

(** C10: when the tutor call rejects, the active session gains the user
    message (without feedback) and one fallback AI message whose text is the
    Japanese apology with its bracketed Chinese translation; the loading
    flag ends false, no playback is started (no speech request, no source
    started: the only audio effect is the stop of step 1) and the
    controller is Idle. *)
Theorem C10_tutor_failure (st : App) (text : string) (s : ChatSession.t) :
  currentSessionId st <> "" ->
  currentSession st = Some s ->
  let st' := run (event (handleSendMessage text None)) st in
  exists userMsg errMsg s',
    currentSession st' = Some s'
    /\ ChatSession.messages s'
       = (ChatSession.messages s ++ [userMsg; errMsg])%list
    /\ Message.sender userMsg = USER /\ Message.text userMsg = text
    /\ Message.feedback userMsg = None
    /\ Message.sender errMsg = AI /\ Message.text errMsg = ERROR_TEXT
    /\ isLoading st' = false
    /\ currentlyPlayingId st' = None
    /\ pending st' = pending st
    /\ (audioLog st' = audioLog st
        \/ exists n, audioLog st' = (audioLog st ++ [SourceStopped n])%list).
Proof.
  intros Hcur Hs.
  destruct st. simpl in Hcur.
  cbv beta iota zeta delta [handleSendMessage handleSendMessage_start
    handleSendMessage_finish].
  unfold_M.
  apply String.eqb_neq in Hcur. rewrite Hcur. cbn.
  unfold currentSession in Hs. simpl in Hs.
  pose proof (find_some _ _ Hs) as [_ Hid].
  destruct sourceNodeRef0 as [n|]; cbn;
    rewrite !find_map_same_id
      by (intros; first [apply appendError_id | apply appendUserMessage_id]);
    rewrite Hs; cbn [option_map];
    (do 3 eexists; split; [reflexivity|]);
    (split;
     [unfold appendError; rewrite appendUserMessage_id, Hid;
      unfold appendUserMessage; rewrite Hid; cbn;
      rewrite <- app_assoc; reflexivity
     |repeat split; eauto]).
Qed.

Lemma C10_tutor_failure_witness :
  currentSessionId first_state <> ""
  /\ currentSession first_state = Some first_session
  /\ isLoading (run (event (handleSendMessage "こんにちは" None)) first_state)
     = false.
Proof.
  assert (H1 : currentSessionId first_state <> "") by (vm_compute; discriminate).
  assert (H2 : currentSession first_state = Some first_session)
    by (vm_compute; reflexivity).
  split; [exact H1|]. split; [exact H2|].
  destruct (C10_tutor_failure first_state "こんにちは" first_session H1 H2)
    as (u & e & s' & _ & _ & _ & _ & _ & _ & _ & Hl & _).
  exact Hl.
Defined.

Lemma apiHistory_window (messages : list Message.t) (u : Message.t) :
  let prior := List.filter (fun m => negb (String.eqb (Message.id m) "welcome"))
                 messages in
  apiHistory_of messages u
  = map toApiContent (skipn (length prior - 11) prior).
Proof.
  intros prior. unfold apiHistory_of, slice_last, slice_drop_last.
  fold prior. f_equal.
  rewrite length_app. simpl.
  replace (length prior + 1 - 12) with (length prior - 11) by lia.
  rewrite List.skipn_app.
  replace (length prior - 11 - length prior) with 0 by lia. simpl.
  rewrite length_app, length_skipn. simpl.
  replace (length prior - (length prior - 11) + 1 - 1)
    with (length (skipn (length prior - 11) prior))
    by (rewrite length_skipn; lia).
  rewrite List.firstn_app, Nat.sub_diag, List.firstn_all. simpl.
  apply app_nil_r.
Qed.

Lemma send_start_log (st : App) (text : string) :
  currentSessionId st <> "" ->
  exists c st1, handleSendMessage_start text st = (Some c, st1)
    /\ tutorLog st1
       = (tutorLog st
          ++ [(apiHistory_of (current_messages st)
                 (Message.mk (toString (clk st (ticks st))) USER text
                    (clk st (S (ticks st))) None None), text)])%list.
Proof.
  intros Hcur. destruct st. simpl in Hcur.
  apply String.eqb_neq in Hcur.
  cbv beta iota zeta delta [handleSendMessage_start].
  unfold_M. rewrite Hcur.
  destruct sourceNodeRef0; cbn; eexists; eexists; split; reflexivity.
Qed.

(** C1 (as stated, refuted): on a session with the welcome message and 20
    exchanged messages, the tutor receives 11 prior messages, not 12. *)
Lemma C1_counterexample :
  tutorLog (run (event (handleSendMessage "次" None)) long_state)
  = [(map toApiContent (skipn 9 (sample_prior 20)), "次")]
  /\ map (fun e => length (fst e))
       (tutorLog (run (event (handleSendMessage "次" None)) long_state))
     = [11].
Proof. split; vm_compute; reflexivity. Qed.

(** C1 (amended): the tutor is called once per turn, with the new text and,
    as history, the most recent 11 (at most) of the session's messages
    other than the welcome message, in chronological order: the window of
    12 built by the code counts the new message, which is passed as the
    utterance. *)
Theorem C1_history_window (st : App) (text : string)
  (outcome : option TutorResponse.t) (s : ChatSession.t) :
  currentSessionId st <> "" ->
  currentSession st = Some s ->
  let prior := List.filter (fun m => negb (String.eqb (Message.id m) "welcome"))
                 (ChatSession.messages s) in
  tutorLog (run (event (handleSendMessage text outcome)) st)
  = (tutorLog st
     ++ [(map toApiContent (skipn (length prior - 11) prior), text)])%list.
Proof.
  intros Hcur Hs prior.
  assert (Hm : current_messages st = ChatSession.messages s)
    by (unfold current_messages; now rewrite Hs).
  destruct (send_start_log st text Hcur) as (c & st1 & Hrun & Hlog).
  rewrite Hm, apiHistory_window in Hlog.
  assert (Hfin : keeps tutorLog (handleSendMessage_finish c outcome))
    by keeps_tac.
  unfold run, event, handleSendMessage, mbind, M_bind.
  rewrite Hrun.
  destruct (handleSendMessage_finish c outcome st1) as [x st2] eqn:E.
  specialize (Hfin st1). rewrite E in Hfin. simpl in Hfin.
  cbn. rewrite Hfin. exact Hlog.
Qed.

Lemma C1_history_window_witness :
  currentSessionId long_state <> ""
  /\ currentSession long_state = Some long_session
  /\ tutorLog (run (event (handleSendMessage "次" None)) long_state)
     = [(map toApiContent (skipn 9 (sample_prior 20)), "次")].
Proof.
  assert (H1 : currentSessionId long_state <> "") by (vm_compute; discriminate).
  assert (H2 : currentSession long_state = Some long_session)
    by (vm_compute; reflexivity).
  split; [exact H1|]. split; [exact H2|].
  exact (C1_history_window long_state "次" None long_session H1 H2).
Defined.

End TurnClaims.

(** ** The voice input component *)

Module VoiceInputComponentFacts.
Import VoiceInputComponent.

(** X1: starting a recording takes the box content as the base: with the
    recognition object available and not listening, a toggle starts the
    recognition, and the next result shows that content followed by the
    transcript (with the separator of [VoiceInput.onresult]). *)
Lemma recording_extends_box (s : t) (results : list string)
  (Hrec : recognition s = true) (Hidle : isListening s = false) :
  let s1 := toggleListening false true s in
  isListening s1 = true
  /\ calls s1 = (calls s ++ [RecStart])%list
  /\ inputText (onresult results s1)
     = VoiceInput.onresult (inputText s) results.
Proof.
  destruct s as [i l e b r c sn]; simpl in *; subst; simpl.
  repeat split; reflexivity.
Qed.

Lemma recording_extends_box_witness :
  let s := onChange "日本語" (mountEffect true initial) in
  recognition s = true /\ isListening s = false
  /\ inputText (onresult ["を勉強します"] (toggleListening false true s))
     = VoiceInput.onresult "日本語" ["を勉強します"].
Proof.
  split; [reflexivity|]. split; [reflexivity|].
  apply (recording_extends_box (onChange "日本語" (mountEffect true initial))
           ["を勉強します"]); reflexivity.
Defined.

(** X2: while listening, typing in the box leaves the base text alone, so
    the next recognition result yields exactly the state it yields without
    the edit: the typed text is overwritten. *)
Lemma edit_while_listening_overwritten (s : t) (v : string)
  (results : list string) (Hl : isListening s = true) :
  baseText (onChange v s) = baseText s
  /\ onresult results (onChange v s) = onresult results s.
Proof.
  destruct s as [i l e b r c sn]; simpl in *; subst; simpl.
  split; reflexivity.
Qed.

Lemma edit_while_listening_overwritten_witness :
  let s := toggleListening false true (mountEffect true initial) in
  isListening s = true
  /\ onresult ["はい"] (onChange "手で入力" s) = onresult ["はい"] s.
Proof.
  split; [reflexivity|].
  apply (edit_while_listening_overwritten
           (toggleListening false true (mountEffect true initial))
           "手で入力" ["はい"]); reflexivity.
Defined.

(** X4: a recognition error always ends listening and leaves the box and
    the base text alone; the code ['no-speech'] leaves the error message as
    it was, and every other code shows a message. *)
Lemma onerror_outcome (code : string) (s : t) :
  let s' := onerror code s in
  isListening s' = false /\ inputText s' = inputText s
  /\ baseText s' = baseText s
  /\ (code = "no-speech" -> errorMessage s' = errorMessage s)
  /\ (code <> "no-speech" -> exists m, errorMessage s' = Some m).
Proof.
  unfold onerror, errorMessageFor.
  destruct (String.eqb_spec code "audio-capture") as [->|H1];
    [|destruct (String.eqb_spec code "not-allowed") as [->|H2];
    [|destruct (String.eqb_spec code "no-speech") as [->|H3];
    [|destruct (String.eqb_spec code "service-not-allowed") as [->|H4];
    [|destruct (String.eqb_spec code "network") as [->|H5]]]]];
    repeat split; simpl; try reflexivity; intros E;
    try discriminate; try contradiction; eauto.
Qed.

Lemma str_app_inj_l (p a b : string) : p ++ a = p ++ b -> a = b.
Proof.
  induction p as [|x p IH]; str_simpl; [tauto|].
  intros H. injection H as H. auto.
Qed.

Lemma str_prefix_app (p c : string) : String.prefix p (p ++ c) = true.
Proof.
  induction p as [|x p IH]; str_simpl; [destruct c; reflexivity|].
  simpl. destruct (Ascii.ascii_dec x x); [exact IH|contradiction].
Qed.

(** X6: two error codes that show the same message are the same code: the
    five named codes have messages of their own, and every other code is
    shown after the prefix ['语音识别错误: '], which none of those messages
    starts with. *)
Lemma errorMessageFor_injective (c1 c2 m : string)
  (H1 : errorMessageFor c1 = Some m) (H2 : errorMessageFor c2 = Some m) :
  c1 = c2.
Proof.
  revert H1 H2. unfold errorMessageFor.
  repeat (match goal with
          | |- context [String.eqb ?c ?l] =>
              is_var c; destruct (String.eqb_spec c l) as [->|?]
          end; simpl).
  all: intros E1 E2; try discriminate E1; try discriminate E2;
       try reflexivity; rewrite <- E2 in E1; injection E1 as E1.
  all: first
    [ apply str_app_inj_l in E1; exact E1
    | unfold AUDIO_CAPTURE_MESSAGE, NOT_ALLOWED_MESSAGE,
        SERVICE_NOT_ALLOWED_MESSAGE, NETWORK_MESSAGE in E1; discriminate E1
    | apply (f_equal (String.prefix GENERIC_ERROR_PREFIX)) in E1;
      rewrite str_prefix_app in E1; vm_compute in E1; discriminate E1 ].
Qed.

Lemma errorMessageFor_injective_witness :
  errorMessageFor "aborted" = Some (GENERIC_ERROR_PREFIX ++ "aborted")
  /\ "aborted" = "aborted".
Proof.
  split; [reflexivity|].
  apply (errorMessageFor_injective "aborted" "aborted"
           (GENERIC_ERROR_PREFIX ++ "aborted")); reflexivity.
Defined.

End VoiceInputComponentFacts.

(** ** Mounting the application *)

Module LoadFacts.

(** X7: whatever the browser storage holds, mounting ends with at least one
    session, the first session of the list open, and that list written back
    under the sessions key. *)
Lemma mount_active_session (c : nat -> Z) (stg : gmap string Stored) :
  let st' := run mount (freshApp c stg) in
  exists s rest,
    sessions st' = s :: rest
    /\ currentSessionId st' = ChatSession.id s
    /\ currentSession st' = Some s
    /\ storage st' !! LOCAL_STORAGE_KEY = Some (StoredSessions (sessions st')).
Proof.
  cbv beta iota zeta delta [mount loadSessions loadSavedSentences
    persistValues initFirstSession createNewSession createWelcomeMessage
    freshApp].
  unfold_M.
  destruct (stg !! LOCAL_STORAGE_KEY) as [[[|s rest]|l]|]; cbn;
  destruct (stg !! SAVED_SENTENCES_KEY) as [[l'|l']|]; cbn.
  all: eexists; eexists; split; [reflexivity|].
  all: split; [reflexivity|].
  all: split; [unfold currentSession; cbn; rewrite String.eqb_refl; reflexivity|].
  all: rewrite lookup_insert_ne by discriminate; apply lookup_insert_eq.
Qed.

(** X8: reloading the page after the save effects have run restores the
    same sessions, the same bookmarks and the first session as the open one,
    and leaves the storage as it was. *)
Lemma reload_restores (st : App) (c : nat -> Z) (s : ChatSession.t)
  (rest : list ChatSession.t) (Hs : sessions st = s :: rest) :
  let stg := storage (run persistEffects st) in
  let st' := run mount (freshApp c stg) in
  sessions st' = sessions st
  /\ savedSentences st' = savedSentences st
  /\ currentSessionId st' = ChatSession.id s
  /\ storage st' = stg.
Proof.
  destruct st; simpl in Hs; subst.
  cbv beta iota zeta delta [mount loadSessions loadSavedSentences
    persistValues freshApp].
  unfold_M.
  rewrite (lookup_insert_ne _ SAVED_SENTENCES_KEY LOCAL_STORAGE_KEY)
    by discriminate.
  rewrite lookup_insert_eq. cbn.
  rewrite lookup_insert_eq. cbn.
  split; [reflexivity|]. split; [reflexivity|]. split; [reflexivity|].
  apply map_eq. intros k.
  destruct (decide (k = SAVED_SENTENCES_KEY)) as [->|Hk1];
    [rewrite !lookup_insert_eq; reflexivity|].
  destruct (decide (k = LOCAL_STORAGE_KEY)) as [->|Hk2].
  - rewrite !(lookup_insert_ne _ SAVED_SENTENCES_KEY) by discriminate.
    rewrite !lookup_insert_eq. reflexivity.
  - repeat (rewrite lookup_insert_ne by congruence). reflexivity.
Qed.

Lemma reload_restores_witness :
  sessions first_state = [first_session]
  /\ sessions (run mount (freshApp clk_tick7
                 (storage (run persistEffects first_state))))
     = sessions first_state.
Proof.
  assert (Hs : sessions first_state = first_session :: [])
    by (vm_compute; reflexivity).
  split; [exact Hs|].
  destruct (reload_restores first_state clk_tick7 first_session [] Hs)
    as [H _].
  exact H.
Defined.

(** X9: when the storage has no non-empty session list (the key is missing,
    the list is empty, or it holds something else), mounting starts exactly
    one new session holding the welcome message and opens it. *)
Theorem mount_fallback (c : nat -> Z) (stg : gmap string Stored)
  (Hnone : match stg !! LOCAL_STORAGE_KEY with
           | Some (StoredSessions (_ :: _)) => False
           | _ => True
           end) :
  let st' := run mount (freshApp c stg) in
  sessions st' = [ChatSession.mk (toString (c 0%nat)) DEFAULT_TITLE (c 1%nat)
                    [welcome_at (c 2%nat)]]
  /\ currentSessionId st' = toString (c 0%nat).
Proof.
  cbv beta iota zeta delta [mount loadSessions loadSavedSentences
    persistValues initFirstSession createNewSession createWelcomeMessage
    freshApp].
  unfold_M.
  destruct (stg !! LOCAL_STORAGE_KEY) as [[[|s rest]|l]|]; cbn;
    [| contradiction | |];
  destruct (stg !! SAVED_SENTENCES_KEY) as [[l'|l']|]; cbn;
  split; reflexivity.
Qed.

Lemma mount_fallback_witness :
  sessions (run mount (freshApp clk_tick7 ∅))
  = [ChatSession.mk (toString (clk_tick7 0%nat)) DEFAULT_TITLE
       (clk_tick7 1%nat) [welcome_at (clk_tick7 2%nat)]].
Proof.
  destruct (mount_fallback clk_tick7 ∅) as [H _];
    [vm_compute; exact I | exact H].
Defined.

(** X10: a new chat is put in front of the list, opened, and the new list
    is written to storage. *)
Theorem newChat_front (st : App) :
  let s := ChatSession.mk (toString (clk st (ticks st))) DEFAULT_TITLE
             (clk st (1 + ticks st)) [welcome_at (clk st (2 + ticks st))] in
  let st' := run (event handleNewChat) st in
  sessions st' = s :: sessions st
  /\ currentSessionId st' = ChatSession.id s
  /\ currentSession st' = Some s
  /\ storage st' !! LOCAL_STORAGE_KEY = Some (StoredSessions (s :: sessions st)).
Proof.
  destruct st.
  cbv beta iota zeta delta [handleNewChat createNewSession createWelcomeMessage].
  unfold_M.
  split; [reflexivity|]. split; [reflexivity|].
  split; [unfold currentSession; cbn; rewrite String.eqb_refl; reflexivity|].
  rewrite lookup_insert_ne by discriminate. apply lookup_insert_eq.
Qed.

End LoadFacts.

(** ** Playback *)

Module PlaybackFacts.

(** X11: [stopAudio] leaves playback idle with no source node, logs a stop
    only when a node was playing, and a second call changes nothing. *)
Theorem stopAudio_idempotent (st : App) :
  run (stopAudio ;; stopAudio) st = run stopAudio st
  /\ playback_state (run stopAudio st) = Idle
  /\ sourceNodeRef (run stopAudio st) = None
  /\ audioLog (run stopAudio st)
     = match sourceNodeRef st with
       | Some n => (audioLog st ++ [SourceStopped n])%list
       | None => audioLog st
       end.
Proof.
  destruct st as [ss sv cur ld to pl [n|] stg c t nn nr snd pd log tl];
    unfold_M; repeat split; reflexivity.
Qed.

(** X12: when the speech request of a [handlePlayAudio] call fails, the
    call ends with playback idle and no source node, and no audio starts or
    stops. *)
Theorem speech_failure_idle (st : App) (text messageId : string) :
  let st1 := run (play text messageId) st in
  let st2 := run (audioReady (nextReq st) false) st1 in
  playback_state st2 = Idle /\ sourceNodeRef st2 = None
  /\ sounding st2 = sounding st1 /\ audioLog st2 = audioLog st1.
Proof.
  destruct st as [ss sv cur ld to pl node stg c t nn nr snd pd log tl].
  unfold_M.
  destruct (PlaybackClaims.find_app_last (fun p => Nat.eqb (req p) nr) pd
              (mkPending nr text messageId) (Nat.eqb_refl nr)) as [y Hy].
  destruct (opt_str_eqb pl messageId); destruct node as [n|]; cbn;
    try rewrite Hy; cbn;
    try (destruct (find (fun p => Nat.eqb (req p) nr) pd); cbn);
    repeat split; reflexivity.
Qed.

End PlaybackFacts.

(** ** A turn of conversation *)

Module TurnFacts.

Lemma mapS_cons {A B} (f : A -> M B) (x : A) (l : list A) (st0 : App) :
  mapS f (x :: l) st0
  = let '(y, st1) := f x st0 in
    let '(ys, st2) := mapS f l st1 in (y :: ys, st2).
Proof. reflexivity. Qed.

Lemma attachReply_other (ctx : SendCtx) (r : TutorResponse.t)
  (x : ChatSession.t) (st0 : App) :
  String.eqb (ChatSession.id x) (ctx_session ctx) = false ->
  attachReply ctx r x st0 = (x, st0).
Proof. intros H. unfold attachReply. now rewrite H. Qed.

Lemma mapS_attach_none (ctx : SendCtx) (r : TutorResponse.t)
  (l : list ChatSession.t) (st0 : App) :
  List.filter (fun x => String.eqb (ChatSession.id x) (ctx_session ctx)) l = [] ->
  mapS (attachReply ctx r) l st0 = (l, st0).
Proof.
  revert st0. induction l as [|x l IH]; intros st0 H; [reflexivity|].
  simpl in H. rewrite mapS_cons.
  destruct (String.eqb (ChatSession.id x) (ctx_session ctx)) eqn:Ex;
    [discriminate|].
  rewrite (attachReply_other ctx r x st0 Ex), (IH st0 H). reflexivity.
Qed.

Lemma map_if_none {A} (f : A -> bool) (y : A) (l : list A) :
  List.filter f l = [] -> map (fun x => if f x then y else x) l = l.
Proof.
  induction l as [|x l IH]; simpl; [reflexivity|].
  destruct (f x); [discriminate|]. intros H. now rewrite IH.
Qed.

Lemma mapS_attach_unique (ctx : SendCtx) (r : TutorResponse.t)
  (l : list ChatSession.t) (s0 : ChatSession.t) (st0 : App) :
  List.filter (fun x => String.eqb (ChatSession.id x) (ctx_session ctx)) l = [s0] ->
  mapS (attachReply ctx r) l st0
  = (map (fun x => if String.eqb (ChatSession.id x) (ctx_session ctx)
                   then fst (attachReply ctx r s0 st0) else x) l,
     snd (attachReply ctx r s0 st0)).
Proof.
  revert st0. induction l as [|x l IH]; intros st0 H; [discriminate|].
  simpl in H. rewrite mapS_cons. simpl map.
  destruct (String.eqb (ChatSession.id x) (ctx_session ctx)) eqn:Ex.
  - injection H as -> Hrest.
    destruct (attachReply ctx r s0 st0) as [y st1].
    rewrite (mapS_attach_none ctx r l st1 Hrest). cbn [fst snd].
    assert (Hm : map (fun x => if String.eqb (ChatSession.id x)
                                   (ctx_session ctx) then y else x) l = l)
      by (apply map_if_none; exact Hrest).
    rewrite Hm. reflexivity.
  - rewrite (attachReply_other ctx r x st0 Ex), (IH st0 H). reflexivity.
Qed.

Lemma filter_map_same_id (g : ChatSession.t -> ChatSession.t)
  (l : list ChatSession.t) (cur : string) :
  (forall s, ChatSession.id (g s) = ChatSession.id s) ->
  List.filter (fun s => String.eqb (ChatSession.id s) cur) (map g l)
  = map g (List.filter (fun s => String.eqb (ChatSession.id s) cur) l).
Proof.
  intros Hg. induction l as [|s l IH]; simpl; [reflexivity|].
  rewrite Hg. destruct (String.eqb (ChatSession.id s) cur); simpl;
    now rewrite IH.
Qed.

Lemma find_filter_single {A} (f : A -> bool) (l : list A) (s : A) :
  List.filter f l = [s] -> find f l = Some s.
Proof.
  induction l as [|x l IH]; simpl; [discriminate|].
  destruct (f x); [intros H; injection H as ->; reflexivity|exact IH].
Qed.

Lemma opt_str_eqb_false (a : option string) (b : string) :
  a <> Some b -> opt_str_eqb a b = false.
Proof.
  destruct a as [a|]; simpl; [|reflexivity].
  intros H. apply String.eqb_neq. congruence.
Qed.

Lemma map_mark_fresh (ms : list Message.t) (u : Message.t) (i : string)
  (fb : FeedbackData.t) :
  Message.id u = i ->
  Forall (fun m => Message.id m <> i) ms ->
  map (fun m => if String.eqb (Message.id m) i
                then withFeedback m fb else m) (ms ++ [u])
  = (ms ++ [withFeedback u fb])%list.
Proof.
  intros Hu H. rewrite map_app. simpl. rewrite Hu, String.eqb_refl. f_equal.
  induction H as [|m ms Hm _ IH]; simpl; [reflexivity|].
  apply String.eqb_neq in Hm. now rewrite Hm, IH.
Qed.

Lemma attachReply_match (ctx : SendCtx) (r : TutorResponse.t)
  (x : ChatSession.t) (st0 : App) :
  ChatSession.id x = ctx_session ctx ->
  attachReply ctx r x st0
  = (replaceMessages x
       (map (fun m => if String.eqb (Message.id m) (ctx_newMessageId ctx)
                      then withFeedback m
                             (FeedbackData.mk (ctx_text ctx)
                                (TutorResponse.correctedSentence
                                   (TutorResponse.feedback r))
                                (TutorResponse.explanation
                                   (TutorResponse.feedback r))
                                (TutorResponse.naturalnessScore
                                   (TutorResponse.feedback r)))
                      else m) (ChatSession.messages x)
        ++ [Message.mk (toString (clk st0 (ticks st0) + 1)) AI
              (TutorResponse.reply r) (clk st0 (S (ticks st0))) None
              (Some (TutorResponse.replyTranslation r))]),
     upd_ticks (S (S (ticks st0))) st0).
Proof. intros H. unfold attachReply. rewrite H, String.eqb_refl. reflexivity. Qed.

(** X13: when the open session is the only one with its id and the tutor
    answers, [handleSendMessage] replaces that session by one with the user
    message (carrying the tutor's feedback) and the reply appended, leaves
    every other session unchanged, clears the loading flag, asks for the
    reply to be spoken and sends the tutor one request.  The played id is
    named by the clock read of line 242; the AI message's id by the next
    read, made by the [setSessions] updater when React renders. *)
Theorem send_success (st : App) (text : string) (r : TutorResponse.t)
  (s : ChatSession.t)
  (Hcur : currentSessionId st <> "")
  (Huniq : List.filter
             (fun x => String.eqb (ChatSession.id x) (currentSessionId st))
             (sessions st) = [s])
  (Hfresh : Forall (fun m => Message.id m <> toString (clk st (ticks st)))
              (ChatSession.messages s))
  (Hplay : currentlyPlayingId st
           <> Some (toString (clk st (2 + ticks st) + 1))) :
  let cur := currentSessionId st in
  let u := Message.mk (toString (clk st (ticks st))) USER text
             (clk st (1 + ticks st)) None None in
  let fb := FeedbackData.mk text
              (TutorResponse.correctedSentence (TutorResponse.feedback r))
              (TutorResponse.explanation (TutorResponse.feedback r))
              (TutorResponse.naturalnessScore (TutorResponse.feedback r)) in
  let ai := Message.mk (toString (clk st (3 + ticks st) + 1)) AI
              (TutorResponse.reply r) (clk st (4 + ticks st)) None
              (Some (TutorResponse.replyTranslation r)) in
  let s' := replaceMessages (appendUserMessage cur text u s)
              (ChatSession.messages s ++ [withFeedback u fb; ai]) in
  let st' := run (handleSendMessage text (Some r)) st in
  sessions st'
  = map (fun x => if String.eqb (ChatSession.id x) cur then s' else x)
      (sessions st)
  /\ isLoading st' = false
  /\ playback_state st' = Playing (toString (clk st (2 + ticks st) + 1))
  /\ audioLog st'
     = (audioLog (run stopAudio st) ++ [SpeechRequested (TutorResponse.reply r)])%list
  /\ tutorLog st' = (tutorLog st ++ [(apiHistory_of (ChatSession.messages s) u, text)])%list.
Proof.
  intros cur u fb ai s'.
  assert (Hfind : currentSession st = Some s)
    by (unfold currentSession; apply find_filter_single; exact Huniq).
  assert (Hid : ChatSession.id s = cur).
  { pose proof (find_some _ _ Hfind) as [_ Hid]. now apply String.eqb_eq in Hid. }
  destruct st as [ss sv cid ld to pl node stg c t nn nr snd pd log tl].
  simpl in *. subst cur.
  cbv beta iota zeta delta [handleSendMessage handleSendMessage_start
    handleSendMessage_finish].
  unfold_M.
  apply String.eqb_neq in Hcur. rewrite Hcur. cbn.
  assert (Hf2 : List.filter
            (fun x => String.eqb (ChatSession.id x) cid)
            (map (appendUserMessage cid text u) ss)
          = [appendUserMessage cid text u s]).
  { rewrite filter_map_same_id by apply TurnClaims.appendUserMessage_id.
    rewrite Huniq. reflexivity. }
  set (ctx := mkSendCtx cid pl text
                (toString (c t))).
  destruct s as [sid stitle screated smsgs]; simpl in Hid; subst sid.
  destruct node as [n|]; cbn;
    rewrite (opt_str_eqb_false _ _ Hplay); cbn;
    rewrite (mapS_attach_unique ctx r _ _ _ Hf2);
    rewrite attachReply_match
      by (rewrite TurnClaims.appendUserMessage_id; reflexivity);
    cbn.
  all: split; [|split; [reflexivity|split; [reflexivity|split; [reflexivity|]]]].
  2, 4: unfold current_messages; rewrite Hfind; reflexivity.
  all: rewrite map_map; apply map_ext_in; intros x Hx;
    rewrite TurnClaims.appendUserMessage_id;
    destruct (String.eqb (ChatSession.id x) cid) eqn:E;
    [|unfold appendUserMessage; rewrite E; reflexivity];
    (assert (Hm : ChatSession.messages
                   (appendUserMessage cid text u
                      (ChatSession.mk cid stitle screated smsgs))
                 = (smsgs ++ [u])%list)
       by (unfold appendUserMessage; cbn; rewrite String.eqb_refl;
           reflexivity));
    rewrite Hm;
    rewrite (map_mark_fresh smsgs u) by (reflexivity || exact Hfresh);
    unfold s'; rewrite <- app_assoc; reflexivity.
Qed.

Lemma send_success_witness :
  currentSessionId first_state <> ""
  /\ List.filter
       (fun x => String.eqb (ChatSession.id x) (currentSessionId first_state))
       (sessions first_state) = [first_session]
  /\ isLoading (run (handleSendMessage "こんにちは" (Some greeting_response))
                  first_state) = false.
Proof.
  assert (H1 : currentSessionId first_state <> "")
    by (intros H; vm_compute in H; discriminate H).
  assert (H2 : List.filter
                 (fun x => String.eqb (ChatSession.id x)
                             (currentSessionId first_state))
                 (sessions first_state) = [first_session])
    by (vm_compute; reflexivity).
  assert (H3 : Forall (fun m => Message.id m
                                <> toString (clk first_state (ticks first_state)))
                 (ChatSession.messages first_session)).
  { vm_compute. constructor; [intros H; discriminate H|constructor]. }
  assert (H4 : currentlyPlayingId first_state
               <> Some (toString (clk first_state (2 + ticks first_state) + 1)))
    by (intros H; vm_compute in H; discriminate H).
  split; [exact H1|]. split; [exact H2|].
  destruct (send_success first_state "こんにちは" greeting_response
              first_session H1 H2 H3 H4) as (_ & H & _).
  exact H.
Defined.

(** X14: a message sent from an open session makes exactly one tutor
    request, whose contents are the last twelve messages of the session
    (the welcome message left out) with the new message at the end. *)
Theorem tutor_request_window (st : App) (text : string)
  (Hcur : currentSessionId st <> "") :
  let u := Message.mk (toString (clk st (ticks st))) USER text
             (clk st (1 + ticks st)) None None in
  let window := (List.filter (fun m => negb (String.eqb (Message.id m) "welcome"))
                   (current_messages st) ++ [u])%list in
  exists ctx st1 history,
    handleSendMessage_start text st = (Some ctx, st1)
    /\ tutorLog st1 = (tutorLog st ++ [(history, text)])%list
    /\ tutorContents history text = map toApiContent (slice_last 12 window)
    /\ length (tutorContents history text) <= 12.
Proof.
  intros u window.
  destruct (TurnClaims.send_start_log st text Hcur) as (ctx & st1 & Hrun & Hlog).
  exists ctx, st1, (apiHistory_of (current_messages st) u).
  split; [exact Hrun|]. split; [exact Hlog|].
  assert (Hw : tutorContents (apiHistory_of (current_messages st) u) text
               = map toApiContent (slice_last 12 window)).
  { unfold tutorContents. rewrite TurnClaims.apiHistory_window.
    unfold window, slice_last.
    set (prior := List.filter
                    (fun m => negb (String.eqb (Message.id m) "welcome"))
                    (current_messages st)).
    rewrite length_app. simpl.
    replace (length prior + 1 - 12) with (length prior - 11) by lia.
    rewrite List.skipn_app.
    replace (length prior - 11 - length prior) with 0 by lia.
    rewrite map_app. reflexivity. }
  split; [exact Hw|].
  rewrite Hw, length_map. unfold slice_last. rewrite length_skipn. lia.
Qed.

Lemma tutor_request_window_witness :
  currentSessionId first_state <> ""
  /\ exists ctx st1,
       handleSendMessage_start "こんにちは" first_state = (Some ctx, st1).
Proof.
  assert (H1 : currentSessionId first_state <> "")
    by (intros H; vm_compute in H; discriminate H).
  split; [exact H1|].
  destruct (tutor_request_window first_state "こんにちは" H1)
    as (ctx & st1 & history & Hrun & _).
  exists ctx, st1. exact Hrun.
Defined.

End TurnFacts.

(** ** Bookmarks *)

Module BookmarkFacts.

(** X15: deleting a bookmark removes every record with that id, keeps all
    the others, changes nothing when no record has the id, and writes the
    new list to storage. *)
Theorem delete_sentence (st : App) (id : string) :
  let st' := run (event (handleDeleteSentence id)) st in
  (forall x, In x (savedSentences st') -> SavedSentence.id x <> id)
  /\ (forall x, In x (savedSentences st) -> SavedSentence.id x <> id ->
                In x (savedSentences st'))
  /\ (Forall (fun x => SavedSentence.id x <> id) (savedSentences st) ->
      savedSentences st' = savedSentences st)
  /\ storage st' !! SAVED_SENTENCES_KEY
     = Some (StoredSentences (savedSentences st')).
Proof.
  destruct st. cbv beta iota zeta delta [handleDeleteSentence]. unfold_M.
  split; [|split; [|split]].
  - intros x Hx. apply filter_In in Hx as [_ Hx].
    apply negb_true_iff, String.eqb_neq in Hx. exact Hx.
  - intros x Hx Hne. apply filter_In. split; [exact Hx|].
    apply negb_true_iff, String.eqb_neq. exact Hne.
  - intros Hall. apply StoreClaims.filter_keep_all.
    eapply Forall_impl; [exact Hall|].
    intros x Hx. apply negb_true_iff, String.eqb_neq. exact Hx.
  - apply lookup_insert_eq.
Qed.


End BookmarkFacts.

(** ** The bookmark review view *)

Module ReviewFacts.
Import SavedSentencesView.
Local Open Scope Z_scope.

Lemma rem_below_twice (a n : Z) :
  0 < n -> 0 <= a < 2 * n -> Z.rem a n = if Z.ltb a n then a else a - n.
Proof.
  intros Hn Ha. rewrite Z.rem_mod_nonneg by lia.
  destruct (Z.ltb_spec a n).
  - apply Z.mod_small. lia.
  - symmetry. apply (Z.mod_unique a n 1 (a - n)); lia.
Qed.

Lemma next_prev_facts (len : nat) (i : Z) :
  (0 < len)%nat -> 0 <= i < Z.of_nat len ->
  0 <= handleNext len i < Z.of_nat len
  /\ 0 <= handlePrev len i < Z.of_nat len
  /\ handlePrev len (handleNext len i) = i
  /\ handleNext len (handlePrev len i) = i.
Proof.
  intros Hlen Hi. unfold handleNext, handlePrev.
  set (n := Z.of_nat len) in *.
  assert (Hn : 0 < n) by lia.
  rewrite (rem_below_twice (i + 1) n) by lia.
  rewrite (rem_below_twice (i - 1 + n) n) by lia.
  destruct (Z.ltb_spec (i + 1) n); destruct (Z.ltb_spec (i - 1 + n) n);
  [ rewrite (rem_below_twice (i + 1 - 1 + n) n) by lia;
    rewrite (rem_below_twice (i - 1 + n + 1) n) by lia
  | rewrite (rem_below_twice (i + 1 - 1 + n) n) by lia;
    rewrite (rem_below_twice (i - 1 + n - n + 1) n) by lia
  | rewrite (rem_below_twice (i + 1 - n - 1 + n) n) by lia;
    rewrite (rem_below_twice (i - 1 + n + 1) n) by lia
  | rewrite (rem_below_twice (i + 1 - n - 1 + n) n) by lia;
    rewrite (rem_below_twice (i - 1 + n - n + 1) n) by lia ];
  repeat match goal with |- context [Z.ltb ?a ?b] => destruct (Z.ltb_spec a b) end;
  lia.
Qed.

Lemma step_keeps_window (e : Event) (v : t) (l : list SavedSentence.t) :
  (mode v = ReviewMode ->
   0 <= reviewIndex v /\ (reviewIndex v < Z.of_nat (length l) \/ reviewIndex v = 0)) ->
  let st' := step e (v, l) in
  mode (fst st') = ReviewMode ->
  0 <= reviewIndex (fst st')
  /\ (reviewIndex (fst st') < Z.of_nat (length (snd st')) \/ reviewIndex (fst st') = 0).
Proof.
  intros Hinv. destruct v as [o md i f]. simpl in Hinv.
  cbv beta iota zeta delta [step].
  destruct e; destruct o; destruct md; cbv beta iota delta [andb mode_eqb isOpen mode];
    try destruct (Nat.ltb_spec 0 (length l)); cbn;
    try match goal with |- context [existsb ?g l] => destruct (existsb g l) end;
    cbn; intros Hm; try discriminate Hm;
    try specialize (Hinv eq_refl);
    try (split; [lia|]; right; reflexivity);
    try exact Hinv.
  1, 2: assert (Hi : 0 <= i < Z.of_nat (length l)) by lia;
    pose proof (next_prev_facts (length l) i ltac:(lia) Hi); lia.
  all: lia.
Qed.
Lemma run_view_keeps_window (evs : list Event) (st : t * list SavedSentence.t) :
  (mode (fst st) = ReviewMode ->
   0 <= reviewIndex (fst st)
   /\ (reviewIndex (fst st) < Z.of_nat (length (snd st)) \/ reviewIndex (fst st) = 0)) ->
  let st' := run_view evs st in
  mode (fst st') = ReviewMode ->
  0 <= reviewIndex (fst st')
  /\ (reviewIndex (fst st') < Z.of_nat (length (snd st')) \/ reviewIndex (fst st') = 0).
Proof.
  unfold run_view. revert st.
  induction evs as [|e evs IH]; intros [v l] Hinv; simpl; [exact Hinv|].
  apply IH. apply (step_keeps_window e v l Hinv).
Qed.

(** X16: from the initial view, whatever the events, whenever the review
    mode is shown with a non-empty collection, the review index points at
    a bookmark, so the card [savedSentences[reviewIndex]] exists. *)
Theorem review_card_defined (evs : list Event) (l0 : list SavedSentence.t) :
  let st := run_view evs (initial, l0) in
  mode (fst st) = ReviewMode -> snd st <> [] ->
  exists card, reviewCard (fst st) (snd st) = Some card.
Proof.
  intros st Hm Hne.
  assert (Hw := run_view_keeps_window evs (initial, l0)
                  ltac:(simpl; discriminate) Hm).
  fold st in Hw.
  destruct st as [v l]; simpl in *.
  destruct l as [|x l]; [contradiction|].
  unfold reviewCard.
  destruct (nth_error (x :: l) (Z.to_nat (reviewIndex v))) eqn:E; [eauto|].
  apply nth_error_None in E. rewrite length_cons in *. lia.
Qed.

Lemma review_card_defined_witness :
  let st := run_view [Open; Save (SavedSentence.mk "1000" "こんにちは" (Some "你好") AIReply 1000 None); ShowReview] (initial, []) in
  mode (fst st) = ReviewMode /\ snd st <> []
  /\ exists card, reviewCard (fst st) (snd st) = Some card.
Proof.
  intros st.
  assert (Hm : mode (fst st) = ReviewMode) by (vm_compute; reflexivity).
  assert (Hne : snd st <> []) by (vm_compute; discriminate).
  split; [exact Hm|]. split; [exact Hne|].
  exact (review_card_defined [Open; Save (SavedSentence.mk "1000" "こんにちは" (Some "你好") AIReply 1000 None); ShowReview] []
           Hm Hne).
Defined.

(** X17: on a collection of [len > 0] bookmarks, from an index in range,
    the next and previous buttons give an index in range, and each undoes
    the other. *)
Theorem review_nav_roundtrip (len : nat) (i : Z) (Hlen : (0 < len)%nat)
  (Hi : 0 <= i < Z.of_nat len) :
  0 <= handleNext len i < Z.of_nat len
  /\ 0 <= handlePrev len i < Z.of_nat len
  /\ handlePrev len (handleNext len i) = i
  /\ handleNext len (handlePrev len i) = i.
Proof. exact (next_prev_facts len i Hlen Hi). Qed.

Lemma review_nav_roundtrip_witness :
  (0 < 3)%nat /\ 0 <= 2 < Z.of_nat 3 /\ handlePrev 3 (handleNext 3 2) = 2.
Proof.
  assert (Hl : (0 < 3)%nat) by lia.
  assert (Hi : 0 <= 2 < Z.of_nat 3) by (simpl; lia).
  split; [exact Hl|]. split; [exact Hi|].
  destruct (review_nav_roundtrip 3 2 Hl Hi) as (_ & _ & H & _).
  exact H.
Defined.

Lemma truthy_idem (o : option string) : truthy (truthy o) = truthy o.
Proof.
  destruct o as [x|]; simpl; [|reflexivity].
  destruct (String.eqb_spec x ""); simpl; [reflexivity|].
  apply String.eqb_neq in n. now rewrite n.
Qed.

Lemma exportLoop_truthy (k : nat) (items : list SavedSentence.t) (md : string) :
  exportLoop k items md
  = exportLoop k
      (map (fun x => SavedSentence.mk (SavedSentence.id x)
                       (SavedSentence.original x)
                       (truthy (SavedSentence.translation x))
                       (SavedSentence.source x) (SavedSentence.timestamp x)
                       (truthy (SavedSentence.note x))) items) md.
Proof.
  revert k md.
  induction items as [|x items IH]; intros k md; simpl; [reflexivity|].
  rewrite IH. f_equal. unfold exportItem. simpl. rewrite !truthy_idem.
  reflexivity.
Qed.

(** X18: in the Markdown export an empty translation or note is treated
    like a missing one: the export equals that of the same bookmarks with
    empty translations and notes removed. *)
Theorem export_blank_as_missing (date : string) (items : list SavedSentence.t) :
  handleExportMarkdown date items
  = handleExportMarkdown date
      (map (fun x => SavedSentence.mk (SavedSentence.id x)
                       (SavedSentence.original x)
                       (truthy (SavedSentence.translation x))
                       (SavedSentence.source x) (SavedSentence.timestamp x)
                       (truthy (SavedSentence.note x))) items).
Proof. unfold handleExportMarkdown. apply exportLoop_truthy. Qed.
End ReviewFacts.
